(** * Device-selection helpers of the matrixMul sample

    A shallow embedding of the two helper headers

    - [common/inc/helper_cuda_drvapi.h]  (driver API helpers)
    - [common/inc/cudaGLHelper.h]        (OpenGL interop helpers)

    The helpers are glue over the vendor driver: everything they observe
    comes from native calls and from the command-line helper, and everything
    they do is printing, terminating the process, calling into the driver and
    (once) storing through a pointer.  The embedding therefore has

    - an environment record [env] holding the answers of the native calls
      and of the command-line helper (deterministic oracles),
    - a state [state] holding the log of observable events and the heap,
    - a small monad [M] with two outcomes: normal return and [exit(code)]. *)

From Stdlib Require Import ZArith Lia Ascii String.
From stdpp Require Import base numbers list strings gmap.

Local Open Scope string_scope.
Local Open Scope list_scope.
Local Open Scope Z_scope.

(** ** C data *)

(** [int] is a 32-bit two's complement integer.  Variables are held as [Z];
    [wrap_int] reduces an exact result to the representable range.  The
    helpers compute with [int]s in four places: [deviceCount-1] (exact for
    every count but [INT_MIN]), [-dev] for an index [dev >= 0] (exact),
    [current_device++] below [device_count] (exact), and the product of
    line 114 of the driver header, which does not fit for boards of the
    size of the Kepler generation and is the one operation written with
    [wrap_int]. *)
Definition INT_MIN : Z := - 2 ^ 31.
Definition INT_MAX : Z := 2 ^ 31 - 1.

Definition wrap_int (z : Z) : Z := (z + 2 ^ 31) mod 2 ^ 32 - 2 ^ 31.

(** The product of two [int]s, reduced modulo [2^32] (what the compilers
    the samples are built with produce when the exact product does not
    fit). *)
Definition int_mul (a b : Z) : Z := wrap_int (a * b).

(** [typedef int CUdevice;] and the status enumerations of [cuda.h] and of
    the runtime; success is the value [0] in both. *)
Definition CUdevice := Z.
Definition CUresult := Z.
Definition CUDA_SUCCESS : CUresult := 0.
Definition cudaError_t := Z.
Definition cudaSuccess : cudaError_t := 0.

Inductive CUdevice_attribute :=
| CU_DEVICE_ATTRIBUTE_MULTIPROCESSOR_COUNT
| CU_DEVICE_ATTRIBUTE_CLOCK_RATE.

(** The fields of [cudaDeviceProp] the helpers read. *)
Record cudaDeviceProp := {
  prop_name : string;
  prop_major : Z;
  prop_minor : Z
}.

(** [#define MAX(a,b) (a > b ? a : b)] *)
Definition MAX (a b : Z) : Z := if a >? b then a else b.

(** ** Observable events *)

Inductive stream := stdout | stderr.

(** An argument of a [printf]-style call. *)
Inductive arg :=
| AInt (z : Z)
| AStr (s : string).

(** A [printf]/[fprintf] call is recorded with its stream, its format string
    and its arguments; a native call that changes the driver's state is
    recorded with its name and its integer arguments. *)
Inductive event :=
| Print (st : stream) (fmt : string) (args : list arg)
| Native (fn : string) (args : list Z).

Record state := {
  log : list event;
  heap : gmap Z Z
}.

Definition emit_event (e : event) (s : state) : state :=
  {| log := log s ++ [e]; heap := heap s |}.

Definition store (p v : Z) (s : state) : state :=
  {| log := log s; heap := <[p := v]> (heap s) |}.

(** ** The monad: state passing with process termination *)

Inductive outcome (A : Type) :=
| Ret (a : A)
| Exit (code : Z).
Arguments Ret {A} a.
Arguments Exit {A} code.

Definition M (A : Type) : Type := state -> outcome A * state.

Definition ret {A} (a : A) : M A := fun s => (Ret a, s).

Definition bind {A B} (c : M A) (k : A -> M B) : M B :=
  fun s => match c s with
           | (Ret a, s') => k a s'
           | (Exit code, s') => (Exit code, s')
           end.

(** [exit(code)]: the rest of the computation is dropped.  The code is the
    argument of [exit] as the source writes it ([0] or [-1]). *)
Definition exit {A} (code : Z) : M A := fun s => (Exit code, s).

Definition emit (e : event) : M unit := fun s => (Ret tt, emit_event e s).

Definition fprintf (st : stream) (fmt : string) (args : list arg) : M unit :=
  emit (Print st fmt args).

Definition printf (fmt : string) (args : list arg) : M unit :=
  fprintf stdout fmt args.

(** [*p = v] *)
Definition poke (p v : Z) : M unit := fun s => (Ret tt, store p v s).

Notation "x <- c1 ;; c2" := (bind c1 (fun x => c2))
  (at level 100, c1 at next level, right associativity).
Notation "c1 ;; c2" := (bind c1 (fun _ => c2))
  (at level 100, right associativity).

(** Characters that need an escape in C. *)
Definition nl : string := String "010"%char EmptyString.
Definition dq : string := String "034"%char EmptyString.

(** ** The environment

    Every native query is an oracle: its status and the content of its
    out-parameter after the call (for [cuDeviceGetName], whose status the
    helpers do not look at, the content of the buffer).  The answers do not
    change during a run.  The command-line helper ([helper_string.h]), the
    error strings ([drvapi_error_string.h], [cudaGetErrorString]), the
    core-count table ([_ConvertSMVer2Cores]), the selection of the runtime
    helpers ([gpuGetMaxGflopsDeviceId]) and the format and exit code of
    their error check are not part of the two headers and are taken as
    given. *)
Record env := {
  cuInit : Z -> CUresult;
  cuDeviceGetCount : CUresult * Z;
  cuDeviceGet : Z -> CUresult * CUdevice;
  cuDeviceGetName : CUdevice -> string;
  cuDeviceComputeCapability : CUdevice -> CUresult * (Z * Z);
  cuDeviceGetAttribute : CUdevice_attribute -> CUdevice -> CUresult * Z;
  _ConvertSMVer2Cores : Z -> Z -> Z;
  getCudaDrvErrorString : CUresult -> string;
  getCmdLineArgumentInt : Z -> list string -> string -> Z;
  checkCmdLineFlag : Z -> list string -> string -> bool;
  cudaGetDeviceCount : cudaError_t * Z;
  cudaGetDeviceProperties : Z -> cudaError_t * cudaDeviceProp;
  cudaGLSetGLDevice : Z -> cudaError_t;
  cudaGetErrorString : cudaError_t -> string;
  cudaCheckFormat : string;
  cudaCheckExitCode : Z;
  gpuGetMaxGflopsDeviceId : M Z
}.

(** A native call with an effect on the driver: logged, then answered. *)
Definition native {A} (fn : string) (args : list Z) (r : A) : M A :=
  emit (Native fn args) ;; ret r.

(** ** helper_cuda_drvapi.h *)

Module Drv.

Definition __FILE__ : string := "helper_cuda_drvapi.h".

Definition checkCudaErrors_fmt : string :=
  "checkCudaErrors() Driver API error = %04d " +:+ dq +:+ "%s" +:+ dq +:+
  " from file <%s>, line %i." +:+ nl.

Definition __checkCudaErrors (E : env) (err : CUresult) (file : string)
    (line : Z) : M unit :=
  if negb (CUDA_SUCCESS =? err) then
    fprintf stderr checkCudaErrors_fmt
      [AInt err; AStr (getCudaDrvErrorString E err); AStr file; AInt line] ;;
    exit (-1)
  else ret tt.

(** [#define checkCudaErrors(err) __checkCudaErrors (err, __FILE__, __LINE__)];
    the line is the one the use of the macro starts on. *)
Definition checkCudaErrors (E : env) (line : Z) (err : CUresult) : M unit :=
  __checkCudaErrors E err __FILE__ line.

Definition no_devices_fmt : string :=
  "cudaDeviceInit error: no devices supporting CUDA" +:+ nl.
Definition detected_fmt : string :=
  ">> %d CUDA capable GPU device(s) detected. <<" +:+ nl.
Definition invalid_fmt : string :=
  ">> cudaDeviceInit (-device=%d) is not a valid GPU device. <<" +:+ nl.
Definition using_fmt : string :=
  "gpuDeviceInitDRV() Using CUDA Device [%d]: %s" +:+ nl.

Definition gpuDeviceInitDRV (E : env) (ARGC : Z) (ARGV : list string) : M Z :=
  let deviceCount := 0 in
  err <- native "cuInit" [0] (cuInit E 0) ;;
  deviceCount <-
    (if CUDA_SUCCESS =? err then
       checkCudaErrors E 53 (fst (cuDeviceGetCount E)) ;;
       ret (snd (cuDeviceGetCount E))
     else ret deviceCount) ;;
  if deviceCount =? 0 then
    fprintf stderr no_devices_fmt [] ;;
    exit (-1)
  else
    let dev := getCmdLineArgumentInt E ARGC ARGV "device=" in
    let dev := if dev <? 0 then 0 else dev in
    if dev >? deviceCount - 1 then
      fprintf stderr nl [] ;;
      fprintf stderr detected_fmt [AInt deviceCount] ;;
      fprintf stderr invalid_fmt [AInt dev] ;;
      fprintf stderr nl [] ;;
      ret (- dev)
    else
      checkCudaErrors E 68 (fst (cuDeviceGet E dev)) ;;
      let cuDevice := snd (cuDeviceGet E dev) in
      let name := cuDeviceGetName E cuDevice in
      (if negb (checkCmdLineFlag E ARGC ARGV "quiet") then
         printf using_fmt [AInt dev; AStr name]
       else ret tt) ;;
      ret dev.

(** The values the second loop of [getMaxGflopsDeviceIdDRV] reads for a
    device (the out-parameters of lines 100-106) and the score it computes
    from them (lines 108-114). *)
Definition major_of (E : env) (d : CUdevice) : Z :=
  fst (snd (cuDeviceComputeCapability E d)).
Definition minor_of (E : env) (d : CUdevice) : Z :=
  snd (snd (cuDeviceComputeCapability E d)).

Definition compute_perf (E : env) (d : CUdevice) : Z :=
  let multiProcessorCount :=
    snd (cuDeviceGetAttribute E CU_DEVICE_ATTRIBUTE_MULTIPROCESSOR_COUNT d) in
  let clockRate :=
    snd (cuDeviceGetAttribute E CU_DEVICE_ATTRIBUTE_CLOCK_RATE d) in
  let major := major_of E d in
  let minor := minor_of E d in
  let sm_per_multiproc :=
    if (major =? 9999) && (minor =? 9999) then 1
    else _ConvertSMVer2Cores E major minor in
  int_mul (int_mul multiProcessorCount sm_per_multiproc) clockRate.

(** Lines 89-95.  [while (current_device < device_count) { ...;
    current_device++; }] runs [device_count - current_device] times; the
    loop is written by recursion on that number ([best_arch_while_eq] below
    gives back the equation of the [while]). *)
Fixpoint best_arch_loop (E : env) (n : nat) (current_device best_SM_arch : Z)
    : M Z :=
  match n with
  | O => ret best_SM_arch
  | S n' =>
      checkCudaErrors E 90 (fst (cuDeviceComputeCapability E current_device)) ;;
      let major := major_of E current_device in
      let best_SM_arch :=
        if (major >? 0) && (major <? 9999) then MAX best_SM_arch major
        else best_SM_arch in
      best_arch_loop E n' (current_device + 1) best_SM_arch
  end.

Definition best_arch_while (E : env) (device_count current_device
    best_SM_arch : Z) : M Z :=
  best_arch_loop E (Z.to_nat (device_count - current_device))
    current_device best_SM_arch.

(** Lines 99-129, in the same way. *)
Fixpoint best_perf_loop (E : env) (best_SM_arch : Z) (n : nat)
    (current_device max_compute_perf max_perf_device : Z) : M Z :=
  match n with
  | O => ret max_perf_device
  | S n' =>
      checkCudaErrors E 100
        (fst (cuDeviceGetAttribute E CU_DEVICE_ATTRIBUTE_MULTIPROCESSOR_COUNT
                current_device)) ;;
      checkCudaErrors E 103
        (fst (cuDeviceGetAttribute E CU_DEVICE_ATTRIBUTE_CLOCK_RATE
                current_device)) ;;
      checkCudaErrors E 106 (fst (cuDeviceComputeCapability E current_device)) ;;
      let major := major_of E current_device in
      let compute_perf := compute_perf E current_device in
      let '(max_compute_perf, max_perf_device) :=
        if compute_perf >? max_compute_perf then
          if best_SM_arch >? 2 then
            if major =? best_SM_arch then (compute_perf, current_device)
            else (max_compute_perf, max_perf_device)
          else (compute_perf, current_device)
        else (max_compute_perf, max_perf_device) in
      best_perf_loop E best_SM_arch n' (current_device + 1)
        max_compute_perf max_perf_device
  end.

Definition best_perf_while (E : env) (device_count best_SM_arch current_device
    max_compute_perf max_perf_device : Z) : M Z :=
  best_perf_loop E best_SM_arch (Z.to_nat (device_count - current_device))
    current_device max_compute_perf max_perf_device.

Definition getMaxGflopsDeviceIdDRV (E : env) : M Z :=
  native "cuInit" [0] (cuInit E 0) ;;
  checkCudaErrors E 86 (fst (cuDeviceGetCount E)) ;;
  let device_count := snd (cuDeviceGetCount E) in
  best_SM_arch <- best_arch_while E device_count 0 0 ;;
  best_perf_while E device_count best_SM_arch 0 0 0.

Definition exiting_fmt : string := "exiting..." +:+ nl.
Definition find_using_fmt : string := "> Using CUDA Device [%d]: %s" +:+ nl.

(** [p_devID] is an address; [0] is the null pointer. *)
Definition findCudaDeviceDRV (E : env) (argc : Z) (argv : list string)
    (p_devID : Z) : M CUdevice :=
  devID <-
    (if checkCmdLineFlag E argc argv "device" then
       devID <- gpuDeviceInitDRV E argc argv ;;
       (if devID <? 0 then
          printf exiting_fmt [] ;;
          exit 0
        else ret devID)
     else
       devID <- getMaxGflopsDeviceIdDRV E ;;
       checkCudaErrors E 149 (fst (cuDeviceGet E devID)) ;;
       let cuDevice := snd (cuDeviceGet E devID) in
       let name := cuDeviceGetName E cuDevice in
       printf find_using_fmt [AInt devID; AStr name] ;;
       ret devID) ;;
  let cuDevice := snd (cuDeviceGet E devID) in
  (if negb (p_devID =? 0) then poke p_devID devID else ret tt) ;;
  ret cuDevice.

End Drv.

(** ** cudaGLHelper.h *)

Module GL.

Definition __FILE__ : string := "cudaGLHelper.h".

(** Modelled from the spec: the [checkCudaErrors] macro of the runtime
    helpers, which [cudaGLHelper.h] uses and does not define.  Following
    "map a native status code to a human-readable string and print it with
    file/line context, then terminate the process immediately": nothing
    happens on success; otherwise one line is printed and the process
    exits.  The format of the line and the exit code are taken from the
    environment. *)
Definition checkCudaErrors (E : env) (line : Z) (err : cudaError_t) : M unit :=
  if negb (cudaSuccess =? err) then
    fprintf stderr (cudaCheckFormat E)
      [AStr __FILE__; AInt line; AInt err; AStr (cudaGetErrorString E err)] ;;
    exit (cudaCheckExitCode E)
  else ret tt.

Definition no_devices_fmt : string :=
  "CUDA error: no devices supporting CUDA." +:+ nl.
Definition detected_fmt : string :=
  ">> %d CUDA capable GPU device(s) detected. <<" +:+ nl.
Definition invalid_fmt : string :=
  ">> gpuGLDeviceInit (-device=%d) is not a valid GPU device. <<" +:+ nl.
Definition no_cuda_fmt : string :=
  "Error: device does not support CUDA." +:+ nl.
Definition using_fmt : string := "Using device %d: %s" +:+ nl.
Definition exiting_fmt : string :=
  "no CUDA capable devices found, exiting..." +:+ nl.

Definition gpuGLDeviceInit (E : env) (ARGC : Z) (ARGV : list string) : M Z :=
  checkCudaErrors E 21 (fst (cudaGetDeviceCount E)) ;;
  let deviceCount := snd (cudaGetDeviceCount E) in
  if deviceCount =? 0 then
    fprintf stderr no_devices_fmt [] ;;
    exit (-1)
  else
    let dev := getCmdLineArgumentInt E ARGC ARGV "device=" in
    let dev := if dev <? 0 then 0 else dev in
    if dev >? deviceCount - 1 then
      fprintf stderr nl [] ;;
      fprintf stderr detected_fmt [AInt deviceCount] ;;
      fprintf stderr invalid_fmt [AInt dev] ;;
      fprintf stderr nl [] ;;
      ret (- dev)
    else
      checkCudaErrors E 38 (fst (cudaGetDeviceProperties E dev)) ;;
      let deviceProp := snd (cudaGetDeviceProperties E dev) in
      if prop_major deviceProp <? 1 then
        fprintf stderr no_cuda_fmt [] ;;
        exit (-1)
      else
        (if negb (checkCmdLineFlag E ARGC ARGV "quiet") then
           fprintf stderr using_fmt [AInt dev; AStr (prop_name deviceProp)]
         else ret tt) ;;
        r <- native "cudaGLSetGLDevice" [dev] (cudaGLSetGLDevice E dev) ;;
        checkCudaErrors E 46 r ;;
        ret dev.

Definition findCudaGLDevice (E : env) (argc : Z) (argv : list string) : M Z :=
  if checkCmdLineFlag E argc argv "device" then
    devID <- gpuGLDeviceInit E argc argv ;;
    if devID <? 0 then
      printf exiting_fmt [] ;;
      native "cudaDeviceReset" [] tt ;;
      exit 0
    else ret devID
  else
    devID <- gpuGetMaxGflopsDeviceId E ;;
    native "cudaGLSetGLDevice" [devID] (cudaGLSetGLDevice E devID) ;;
    ret devID.

End GL.

(** ** Reading a run *)

(** The state after the events [l] were appended to the log. *)
Definition emits (s : state) (l : list event) : state :=
  {| log := log s ++ l; heap := heap s |}.

(** What a computation appended to the log of [s]. *)
Definition emitted {A} (c : M A) (s : state) : list event :=
  drop (length (log s)) (log (snd (c s))).

(** The index the init helpers work with: line 60 of the driver header,
    lines 28-29 of the interop header. *)
Definition clamp (dev : Z) : Z := if dev <? 0 then 0 else dev.

(** ** Sample environments

    A machine described by the list of its devices, on which every native
    call succeeds for the devices that exist and reports an invalid device
    otherwise, together with a command line reduced to what the helper
    answers for it. *)
Record gpu := {
  gpu_name : string;
  gpu_major : Z;
  gpu_minor : Z;
  gpu_mpc : Z;
  gpu_clock : Z
}.

Definition CUDA_ERROR_INVALID_DEVICE : CUresult := 101.
Definition cudaErrorInvalidDevice : cudaError_t := 10.

Definition gpu_at (gpus : list gpu) (d : Z) : option gpu :=
  if d <? 0 then None else gpus !! Z.to_nat d.

(** A core-count table in the style of the SDK's. *)
Definition sample_cores (major minor : Z) : Z :=
  if major =? 1 then 8
  else if major =? 2 then (if minor =? 0 then 32 else 48)
  else if major =? 3 then 192
  else -1.

Definition sample_env (gpus : list gpu) (device_arg : option Z) (quiet : bool)
    : env :=
  {| cuInit := fun _ => CUDA_SUCCESS;
     cuDeviceGetCount := (CUDA_SUCCESS, Z.of_nat (length gpus));
     cuDeviceGet := fun d =>
       match gpu_at gpus d with
       | Some _ => (CUDA_SUCCESS, d)
       | None => (CUDA_ERROR_INVALID_DEVICE, 0)
       end;
     cuDeviceGetName := fun d =>
       match gpu_at gpus d with
       | Some g => gpu_name g
       | None => EmptyString
       end;
     cuDeviceComputeCapability := fun d =>
       match gpu_at gpus d with
       | Some g => (CUDA_SUCCESS, (gpu_major g, gpu_minor g))
       | None => (CUDA_ERROR_INVALID_DEVICE, (0, 0))
       end;
     cuDeviceGetAttribute := fun a d =>
       match gpu_at gpus d with
       | Some g =>
           (CUDA_SUCCESS,
            match a with
            | CU_DEVICE_ATTRIBUTE_MULTIPROCESSOR_COUNT => gpu_mpc g
            | CU_DEVICE_ATTRIBUTE_CLOCK_RATE => gpu_clock g
            end)
       | None => (CUDA_ERROR_INVALID_DEVICE, 0)
       end;
     _ConvertSMVer2Cores := sample_cores;
     getCudaDrvErrorString := fun _ => "CUDA_ERROR";
     getCmdLineArgumentInt := fun _ _ key =>
       if String.eqb key "device=" then default 0 device_arg else 0;
     checkCmdLineFlag := fun _ _ key =>
       if String.eqb key "device" then bool_decide (is_Some device_arg)
       else if String.eqb key "quiet" then quiet
       else false;
     cudaGetDeviceCount := (cudaSuccess, Z.of_nat (length gpus));
     cudaGetDeviceProperties := fun d =>
       match gpu_at gpus d with
       | Some g =>
           (cudaSuccess,
            {| prop_name := gpu_name g; prop_major := gpu_major g;
               prop_minor := gpu_minor g |})
       | None =>
           (cudaErrorInvalidDevice,
            {| prop_name := EmptyString; prop_major := 0; prop_minor := 0 |})
       end;
     cudaGLSetGLDevice := fun d =>
       match gpu_at gpus d with
       | Some _ => cudaSuccess
       | None => cudaErrorInvalidDevice
       end;
     cudaGetErrorString := fun _ => "cudaError";
     cudaCheckFormat := "%s(%i) : CUDA Runtime API error %d: %s." +:+ nl;
     cudaCheckExitCode := 1;
     gpuGetMaxGflopsDeviceId := ret 0 |}.

(** Two boards of the Fermi and Kepler generations. *)
Definition fermi : gpu :=
  {| gpu_name := "GeForce GTX 580"; gpu_major := 2; gpu_minor := 0;
     gpu_mpc := 16; gpu_clock := 1544000 |}.
Definition kepler : gpu :=
  {| gpu_name := "GeForce GT 640"; gpu_major := 3; gpu_minor := 0;
     gpu_mpc := 2; gpu_clock := 900000 |}.

Definition empty_state : state := {| log := []; heap := ∅ |}.

(** Command lines, and the machines they are run on below. *)
Definition argv_plain : list string := ["./matrixMul"].
Definition argv_device (n : string) : list string :=
  ["./matrixMul"; "-device=" +:+ n].

(** One Fermi board; [-device=5]. *)
Definition one_gpu_device_5 : env := sample_env [fermi] (Some 5) false.
(** No board; [-device=0]. *)
Definition no_gpu_device_0 : env := sample_env [] (Some 0) false.
(** A Fermi board and a (slower) Kepler board; no [-device]. *)
Definition two_gpus : env := sample_env [fermi; kepler] None false.
(** The same machine; [-device=1]. *)
Definition two_gpus_device_1 : env := sample_env [fermi; kepler] (Some 1) false.
(** One Fermi board; [-device=-3]. *)
Definition one_gpu_device_neg : env := sample_env [fermi] (Some (-3)) false.
(** Two Fermi boards, the smaller first, and two Kepler boards that report
    a clock rate of 0 (so that their score is 0); no [-device]. *)
Definition gtx560 : gpu :=
  {| gpu_name := "GeForce GTX 560"; gpu_major := 2; gpu_minor := 1;
     gpu_mpc := 7; gpu_clock := 1620000 |}.
Definition idle_kepler : gpu :=
  {| gpu_name := "GeForce GT 640"; gpu_major := 3; gpu_minor := 0;
     gpu_mpc := 2; gpu_clock := 0 |}.
Definition mixed_machine : env :=
  sample_env [gtx560; fermi; idle_kepler; idle_kepler] None false.
(** One Fermi board; [-device=0 -quiet]. *)
Definition one_gpu_quiet : env := sample_env [fermi] (Some 0) true.
Definition argv_quiet : list string := ["./matrixMul"; "-device=0"; "-quiet"].
(** A pre-CUDA board of major version 0; [-device=0]. *)
Definition old_board : gpu :=
  {| gpu_name := "GeForce 7800"; gpu_major := 0; gpu_minor := 0;
     gpu_mpc := 0; gpu_clock := 0 |}.
Definition old_gpu_device_0 : env := sample_env [old_board] (Some 0) false.

(** ** What the two loops of [getMaxGflopsDeviceIdDRV] compute *)

(** The guard of line 91. *)
Definition qualifies (major : Z) : bool := (major >? 0) && (major <? 9999).

(** The value of [best_SM_arch] after the first loop has visited the [n]
    devices from [cur] on. *)
Fixpoint best_arch_of (E : env) (n : nat) (cur best : Z) : Z :=
  match n with
  | O => best
  | S n' =>
      best_arch_of E n' (cur + 1)
        (if qualifies (Drv.major_of E cur) then MAX best (Drv.major_of E cur)
         else best)
  end.

Definition best_SM_arch (E : env) : Z :=
  best_arch_of E (Z.to_nat (snd (cuDeviceGetCount E))) 0 0.

(** The devices the second loop may select (lines 117-126): all of them
    while the best major version is at most 2, and from then on those of
    the best major version only. *)
Definition eligible (E : env) (best : Z) (d : CUdevice) : bool :=
  if best >? 2 then Drv.major_of E d =? best else true.

(** The values of [max_compute_perf] and [max_perf_device] after the second
    loop has visited the [n] devices from [cur] on. *)
Fixpoint max_perf_of (E : env) (best : Z) (n : nat) (cur mp md : Z) : Z * Z :=
  match n with
  | O => (mp, md)
  | S n' =>
      if (Drv.compute_perf E cur >? mp) && eligible E best cur
      then max_perf_of E best n' (cur + 1) (Drv.compute_perf E cur) cur
      else max_perf_of E best n' (cur + 1) mp md
  end.

Definition max_perf_device (E : env) : Z :=
  snd (max_perf_of E (best_SM_arch E)
         (Z.to_nat (snd (cuDeviceGetCount E))) 0 0 0).

(** Every query the selection makes about device [d] succeeds. *)
Definition device_queries_ok (E : env) (d : CUdevice) : bool :=
  (fst (cuDeviceComputeCapability E d) =? CUDA_SUCCESS) &&
  (fst (cuDeviceGetAttribute E CU_DEVICE_ATTRIBUTE_MULTIPROCESSOR_COUNT d)
     =? CUDA_SUCCESS) &&
  (fst (cuDeviceGetAttribute E CU_DEVICE_ATTRIBUTE_CLOCK_RATE d)
     =? CUDA_SUCCESS).

(** The enumeration succeeds: the count and every query about an
    enumerated device. *)
Definition enumeration_ok (E : env) : bool :=
  (fst (cuDeviceGetCount E) =? CUDA_SUCCESS) &&
  forallb (device_queries_ok E) (seqZ 0 (snd (cuDeviceGetCount E))).

(** The environment [E] with the answers of the command-line helper
    replaced. *)
Definition with_cmdline (E : env) (f : Z -> list string -> string -> Z)
    (g : Z -> list string -> string -> bool) : env :=
  {| cuInit := cuInit E;
     cuDeviceGetCount := cuDeviceGetCount E;
     cuDeviceGet := cuDeviceGet E;
     cuDeviceGetName := cuDeviceGetName E;
     cuDeviceComputeCapability := cuDeviceComputeCapability E;
     cuDeviceGetAttribute := cuDeviceGetAttribute E;
     _ConvertSMVer2Cores := _ConvertSMVer2Cores E;
     getCudaDrvErrorString := getCudaDrvErrorString E;
     getCmdLineArgumentInt := f;
     checkCmdLineFlag := g;
     cudaGetDeviceCount := cudaGetDeviceCount E;
     cudaGetDeviceProperties := cudaGetDeviceProperties E;
     cudaGLSetGLDevice := cudaGLSetGLDevice E;
     cudaGetErrorString := cudaGetErrorString E;
     cudaCheckFormat := cudaCheckFormat E;
     cudaCheckExitCode := cudaCheckExitCode E;
     gpuGetMaxGflopsDeviceId := gpuGetMaxGflopsDeviceId E |}.

(** The environment [E] with the value parsed for [device=] replaced. *)
Definition with_device_arg (E : env) (n : Z) : env :=
  with_cmdline E
    (fun argc argv key =>
       if String.eqb key "device=" then n
       else getCmdLineArgumentInt E argc argv key)
    (checkCmdLineFlag E).

(** ** The lines the helpers print *)

Definition drv_error_line (E : env) (line : Z) (err : CUresult) : event :=
  Print stderr Drv.checkCudaErrors_fmt
    [AInt err; AStr (getCudaDrvErrorString E err); AStr Drv.__FILE__;
     AInt line].

Definition rt_error_line (E : env) (line : Z) (err : cudaError_t) : event :=
  Print stderr (cudaCheckFormat E)
    [AStr GL.__FILE__; AInt line; AInt err; AStr (cudaGetErrorString E err)].

Definition invalid_lines (detected_fmt invalid_fmt : string)
    (deviceCount dev : Z) : list event :=
  [Print stderr nl []; Print stderr detected_fmt [AInt deviceCount];
   Print stderr invalid_fmt [AInt dev]; Print stderr nl []].

Definition drv_using_line (E : env) (dev : Z) : event :=
  Print stdout Drv.using_fmt
    [AInt dev; AStr (cuDeviceGetName E (snd (cuDeviceGet E dev)))].

Definition gl_using_line (E : env) (dev : Z) : event :=
  Print stderr GL.using_fmt
    [AInt dev; AStr (prop_name (snd (cudaGetDeviceProperties E dev)))].

(** The index the helpers settle on for a command line. *)
Definition requested (E : env) (argc : Z) (argv : list string) : Z :=
  clamp (getCmdLineArgumentInt E argc argv "device=").

(** The flag [quiet] as the helpers read it. *)
Definition quiet (E : env) (argc : Z) (argv : list string) : bool :=
  checkCmdLineFlag E argc argv "quiet".

(** The state [findCudaDeviceDRV] leaves: the store through [p_devID]
    when the pointer is not null (line 154). *)
Definition stored (p_devID devID : Z) (s : state) : state :=
  if p_devID =? 0 then s else store p_devID devID s.

Definition find_using_line (E : env) (devID : Z) : event :=
  Print stdout Drv.find_using_fmt
    [AInt devID; AStr (cuDeviceGetName E (snd (cuDeviceGet E devID)))].

(** The failure modes of the init helpers other than an invalid index: a
    failing native call whose status is looked at, no device, and (for the
    interop helper) a device without CUDA support. *)
Definition drv_init_fails (E : env) (argc : Z) (argv : list string) : bool :=
  let dev := requested E argc argv in
  let count := snd (cuDeviceGetCount E) in
  negb (cuInit E 0 =? CUDA_SUCCESS) ||
  negb (fst (cuDeviceGetCount E) =? CUDA_SUCCESS) ||
  (count =? 0) ||
  (negb (dev >? count - 1) && negb (fst (cuDeviceGet E dev) =? CUDA_SUCCESS)).

Definition gl_init_fails (E : env) (argc : Z) (argv : list string) : bool :=
  let dev := requested E argc argv in
  let count := snd (cudaGetDeviceCount E) in
  negb (fst (cudaGetDeviceCount E) =? cudaSuccess) ||
  (count =? 0) ||
  (negb (dev >? count - 1) &&
   (negb (fst (cudaGetDeviceProperties E dev) =? cudaSuccess) ||
    (prop_major (snd (cudaGetDeviceProperties E dev)) <? 1) ||
    negb (cudaGLSetGLDevice E dev =? cudaSuccess))).

(** ** Statements compared with the code *)

(** "Returns the index of the device with the maximum score", the score
    being [multiProcessorCount * sm_per_multiproc * clockRate]: whenever the
    selection returns, it returns an enumerated device whose score no
    enumerated device exceeds. *)
Definition returns_max_score_device (E : env) : Prop :=
  forall s d s',
    Drv.getMaxGflopsDeviceIdDRV E s = (Ret d, s') ->
    0 <= d < snd (cuDeviceGetCount E) /\
    forall i, 0 <= i < snd (cuDeviceGetCount E) ->
              Drv.compute_perf E i <= Drv.compute_perf E d.

(** The same with the score "weighted by GPU architecture generation" read
    as the restriction of the comparison to the eligible devices: it
    returns an eligible device whose score no eligible device exceeds. *)
Definition returns_max_score_eligible_device (E : env) : Prop :=
  forall s d s',
    Drv.getMaxGflopsDeviceIdDRV E s = (Ret d, s') ->
    0 <= d < snd (cuDeviceGetCount E) /\
    eligible E (best_SM_arch E) d = true /\
    forall i, 0 <= i < snd (cuDeviceGetCount E) ->
              eligible E (best_SM_arch E) i = true ->
              Drv.compute_perf E i <= Drv.compute_perf E d.

(** "Among devices with equal maximal score it returns the lowest eligible
    index": on a machine with a device, what is returned is an eligible
    device of maximal score among the eligible ones, and no eligible device
    of the same score has a lower index. *)
Definition returns_lowest_eligible_of_max_score (E : env) : Prop :=
  forall s d s',
    Drv.getMaxGflopsDeviceIdDRV E s = (Ret d, s') ->
    1 <= snd (cuDeviceGetCount E) ->
    eligible E (best_SM_arch E) d = true /\
    (forall i, 0 <= i < snd (cuDeviceGetCount E) ->
               eligible E (best_SM_arch E) i = true ->
               Drv.compute_perf E i <= Drv.compute_perf E d) /\
    (forall i, 0 <= i < d -> eligible E (best_SM_arch E) i = true ->
               Drv.compute_perf E i < Drv.compute_perf E d).

(** "An explicit index greater than the device count minus one is rejected
    and the process exits with a non-zero exit code", for the two find
    helpers. *)
Definition drv_rejects_with_nonzero_exit (E : env) (argc : Z)
    (argv : list string) : Prop :=
  checkCmdLineFlag E argc argv "device" = true ->
  getCmdLineArgumentInt E argc argv "device=" > snd (cuDeviceGetCount E) - 1 ->
  forall p_devID s, exists code s',
    Drv.findCudaDeviceDRV E argc argv p_devID s = (Exit code, s') /\
    code <> 0.

Definition gl_rejects_with_nonzero_exit (E : env) (argc : Z)
    (argv : list string) : Prop :=
  checkCmdLineFlag E argc argv "device" = true ->
  getCmdLineArgumentInt E argc argv "device=" > snd (cudaGetDeviceCount E) - 1 ->
  forall s, exists code s',
    GL.findCudaGLDevice E argc argv s = (Exit code, s') /\ code <> 0.

(** "When device enumeration reports zero devices the process exits with
    code 0", for the two init helpers. *)
Definition drv_zero_devices_exit_0 (E : env) (argc : Z) (argv : list string)
    : Prop :=
  cuInit E 0 = CUDA_SUCCESS ->
  cuDeviceGetCount E = (CUDA_SUCCESS, 0) ->
  forall s, exists s', Drv.gpuDeviceInitDRV E argc argv s = (Exit 0, s').

Definition gl_zero_devices_exit_0 (E : env) (argc : Z) (argv : list string)
    : Prop :=
  cudaGetDeviceCount E = (cudaSuccess, 0) ->
  forall s, exists s', GL.gpuGLDeviceInit E argc argv s = (Exit 0, s').

(** "No error result is ever returned to a caller" of an init helper: what
    it returns is a valid device index. *)
Definition returns_only_valid_indices (init : M Z) (count : Z) : Prop :=
  forall s d s', init s = (Ret d, s') -> 0 <= d <= count - 1.

(** A run of a loop either returns what the pure recursion computes, with
    the state unchanged, or stops at the first failing query with one error
    line and [exit(-1)]. *)
Definition returns_or_fails {A} (E : env) (c : M A) (a : A) (s : state)
    : Prop :=
  c s = (Ret a, s) \/
  exists line err,
    err <> CUDA_SUCCESS /\
    c s = (Exit (-1), emits s [drv_error_line E line err]).

(** ** The OpenGL error check of cudaGLHelper.h

    [glGetError] and [gluErrorString] belong to the graphics library and
    [EXIT_FAILURE] to the C library; they are taken as given.
    [glGetError] hands out the recorded error and clears it, so the call is
    logged; [gl_env] holds what the one call of [sdkCheckErrorGL] gets.  The
    header is modelled as it is compiled without [_WIN32] (lines 87-93, the
    copy of the message for the debugger, are left to the preprocessor). *)
Definition GLenum := Z.
Definition GL_NO_ERROR : GLenum := 0.

Record gl_env := {
  glGetError : GLenum;
  gluErrorString : GLenum -> string;
  EXIT_FAILURE : Z
}.

Definition gl_error_where_fmt : string :=
  "GL Error in file '%s' in line %d :" +:+ nl.
Definition gl_error_what_fmt : string := "%s" +:+ nl.

Definition sdkCheckErrorGL (G : gl_env) (file : string) (line : Z) : M bool :=
  let ret_val := true in
  gl_error <- native "glGetError" [] (glGetError G) ;;
  if negb (gl_error =? GL_NO_ERROR) then
    fprintf stderr gl_error_where_fmt [AStr file; AInt line] ;;
    fprintf stderr gl_error_what_fmt [AStr (gluErrorString G gl_error)] ;;
    ret false
  else ret ret_val.

(** [#define SDK_CHECK_ERROR_GL()
       if( false == sdkCheckErrorGL( __FILE__, __LINE__)) { exit(EXIT_FAILURE); }] *)
Definition SDK_CHECK_ERROR_GL (G : gl_env) (file : string) (line : Z)
    : M unit :=
  ok <- sdkCheckErrorGL G file line ;;
  if Bool.eqb false ok then exit (EXIT_FAILURE G) else ret tt.

(** ** More environments *)

(** The environment [E] with the answer of [cuInit] replaced. *)
Definition with_cuInit (E : env) (f : Z -> CUresult) : env :=
  {| cuInit := f;
     cuDeviceGetCount := cuDeviceGetCount E;
     cuDeviceGet := cuDeviceGet E;
     cuDeviceGetName := cuDeviceGetName E;
     cuDeviceComputeCapability := cuDeviceComputeCapability E;
     cuDeviceGetAttribute := cuDeviceGetAttribute E;
     _ConvertSMVer2Cores := _ConvertSMVer2Cores E;
     getCudaDrvErrorString := getCudaDrvErrorString E;
     getCmdLineArgumentInt := getCmdLineArgumentInt E;
     checkCmdLineFlag := checkCmdLineFlag E;
     cudaGetDeviceCount := cudaGetDeviceCount E;
     cudaGetDeviceProperties := cudaGetDeviceProperties E;
     cudaGLSetGLDevice := cudaGLSetGLDevice E;
     cudaGetErrorString := cudaGetErrorString E;
     cudaCheckFormat := cudaCheckFormat E;
     cudaCheckExitCode := cudaCheckExitCode E;
     gpuGetMaxGflopsDeviceId := gpuGetMaxGflopsDeviceId E |}.

(** The environment [E] with the answers of [cuDeviceGetAttribute] and of
    [cudaGLSetGLDevice] replaced. *)
Definition with_answers (E : env)
    (attr : CUdevice_attribute -> CUdevice -> CUresult * Z)
    (bind_gl : Z -> cudaError_t) : env :=
  {| cuInit := cuInit E;
     cuDeviceGetCount := cuDeviceGetCount E;
     cuDeviceGet := cuDeviceGet E;
     cuDeviceGetName := cuDeviceGetName E;
     cuDeviceComputeCapability := cuDeviceComputeCapability E;
     cuDeviceGetAttribute := attr;
     _ConvertSMVer2Cores := _ConvertSMVer2Cores E;
     getCudaDrvErrorString := getCudaDrvErrorString E;
     getCmdLineArgumentInt := getCmdLineArgumentInt E;
     checkCmdLineFlag := checkCmdLineFlag E;
     cudaGetDeviceCount := cudaGetDeviceCount E;
     cudaGetDeviceProperties := cudaGetDeviceProperties E;
     cudaGLSetGLDevice := bind_gl;
     cudaGetErrorString := cudaGetErrorString E;
     cudaCheckFormat := cudaCheckFormat E;
     cudaCheckExitCode := cudaCheckExitCode E;
     gpuGetMaxGflopsDeviceId := gpuGetMaxGflopsDeviceId E |}.

Definition CUDA_ERROR_UNKNOWN : CUresult := 999.
Definition cudaErrorUnknown : cudaError_t := 30.

(** [two_gpus] with a driver that fails the attribute queries of device 1. *)
Definition two_gpus_attribute_fails : env :=
  with_answers two_gpus
    (fun a d => if d =? 1 then (CUDA_ERROR_UNKNOWN, 0)
                else cuDeviceGetAttribute two_gpus a d)
    (cudaGLSetGLDevice two_gpus).

(** [two_gpus], respectively [two_gpus_device_1], with a runtime that
    cannot bind any device to the graphics context. *)
Definition two_gpus_no_interop : env :=
  with_answers two_gpus (cuDeviceGetAttribute two_gpus)
    (fun _ => cudaErrorUnknown).
Definition two_gpus_device_1_no_interop : env :=
  with_answers two_gpus_device_1 (cuDeviceGetAttribute two_gpus_device_1)
    (fun _ => cudaErrorUnknown).

(** [two_gpus] with a driver whose [cuInit] fails. *)
Definition two_gpus_no_init : env :=
  with_cuInit two_gpus (fun _ => CUDA_ERROR_UNKNOWN).
Definition two_gpus_device_1_no_init : env :=
  with_cuInit two_gpus_device_1 (fun _ => CUDA_ERROR_UNKNOWN).

(** No board; no [-device]. *)
Definition no_gpu : env := sample_env [] None false.

(** Two Fermi boards, the smaller first; no [-device]. *)
Definition two_fermis : env := sample_env [gtx560; fermi] None false.

(** The same machine as [two_gpus]; [-quiet] and no [-device]. *)
Definition two_gpus_quiet : env := sample_env [fermi; kepler] None true.

(** A graphics library with no error recorded, and one with
    [GL_INVALID_OPERATION] (0x0502) recorded. *)
Definition gl_clean : gl_env :=
  {| glGetError := GL_NO_ERROR;
     gluErrorString := fun _ => "no error";
     EXIT_FAILURE := 1 |}.
Definition gl_invalid_operation : gl_env :=
  {| glGetError := 1282;
     gluErrorString := fun _ => "invalid operation";
     EXIT_FAILURE := 1 |}.

(** A log that starts with the call of [cuInit] and goes on with printed
    lines only. *)
Definition cuInit_then_lines (l : list event) : Prop :=
  exists lines,
    l = Native "cuInit" [0] :: lines /\ forall fn a, Native fn a ∉ lines.

(** * Properties *)

(** ** The monad and the log *)

Lemma emits_nil s : emits s [] = s.
Proof. destruct s; unfold emits; simpl. by rewrite app_nil_r. Qed.

Lemma emit_event_emits e s : emit_event e s = emits s [e].
Proof. reflexivity. Qed.

Lemma emits_emits s l1 l2 : emits (emits s l1) l2 = emits s (l1 ++ l2).
Proof. unfold emits; simpl. by rewrite app_assoc. Qed.

Lemma log_emits s l : log (emits s l) = log s ++ l.
Proof. reflexivity. Qed.

Lemma heap_emits s l : heap (emits s l) = heap s.
Proof. reflexivity. Qed.

Lemma emitted_emits {A} (c : M A) s o l :
  c s = (o, emits s l) -> emitted c s = l.
Proof. intros H. unfold emitted. rewrite H. simpl. apply drop_app_length. Qed.

Lemma bind_ret_l {A B} (a : A) (k : A -> M B) s : bind (ret a) k s = k a s.
Proof. reflexivity. Qed.

Lemma bind_Ret {A B} (c : M A) (k : A -> M B) s a s' :
  c s = (Ret a, s') -> bind c k s = k a s'.
Proof. unfold bind. by intros ->. Qed.

Lemma bind_Exit {A B} (c : M A) (k : A -> M B) s code s' :
  c s = (Exit code, s') -> bind c k s = (Exit code, s').
Proof. unfold bind. by intros ->. Qed.

(** A run of [bind] that returns went through both parts. *)
Lemma bind_Ret_inv {A B} (c : M A) (k : A -> M B) s b s' :
  bind c k s = (Ret b, s') ->
  exists a s1, c s = (Ret a, s1) /\ k a s1 = (Ret b, s').
Proof.
  unfold bind. destruct (c s) as [[a|code] s1]; [eauto | discriminate].
Qed.

(** Unfolding the primitive operations, and putting the log in the form
    [emits s l]. *)
Ltac unfold_ops :=
  unfold Drv.checkCudaErrors, Drv.__checkCudaErrors, GL.checkCudaErrors,
    native, printf, fprintf, emit, poke, exit, bind, ret in *.

Ltac run_simpl :=
  unfold CUDA_SUCCESS, cudaSuccess in *;
  rewrite ?Z.eqb_refl;
  cbn -[Z.eqb Z.ltb Z.gtb Z.sub Z.opp Z.add].

Ltac norm_log :=
  repeat rewrite emit_event_emits in *;
  repeat rewrite emits_emits in *;
  simpl app in *.

Ltac finish_run := run_simpl; norm_log; reflexivity.

(** Case analysis on every test a run summary in [H] depends on. *)
Ltac split_paths H :=
  repeat match type of H with
         | context [if ?b then _ else _] => destruct b eqn:?
         end.

(** ** [int] arithmetic *)

Lemma wrap_int_range z : INT_MIN <= wrap_int z <= INT_MAX.
Proof.
  unfold wrap_int, INT_MIN, INT_MAX.
  pose proof (Z.mod_pos_bound (z + 2 ^ 31) (2 ^ 32) ltac:(lia)). lia.
Qed.

Lemma wrap_int_exact z : INT_MIN <= z <= INT_MAX -> wrap_int z = z.
Proof.
  unfold wrap_int, INT_MIN, INT_MAX. intros Hz.
  rewrite Z.mod_small by lia. lia.
Qed.

(** The score is an [int]; it is the exact product whenever the two
    products of line 114 fit. *)
Lemma compute_perf_range E d :
  INT_MIN <= Drv.compute_perf E d <= INT_MAX.
Proof. unfold Drv.compute_perf, int_mul. cbv zeta. apply wrap_int_range. Qed.

Lemma compute_perf_exact E d :
  let mpc :=
    snd (cuDeviceGetAttribute E CU_DEVICE_ATTRIBUTE_MULTIPROCESSOR_COUNT d) in
  let clock := snd (cuDeviceGetAttribute E CU_DEVICE_ATTRIBUTE_CLOCK_RATE d) in
  let cores :=
    if (Drv.major_of E d =? 9999) && (Drv.minor_of E d =? 9999) then 1
    else _ConvertSMVer2Cores E (Drv.major_of E d) (Drv.minor_of E d) in
  INT_MIN <= mpc * cores <= INT_MAX ->
  INT_MIN <= mpc * cores * clock <= INT_MAX ->
  Drv.compute_perf E d = mpc * cores * clock.
Proof.
  intros mpc clock cores H1 H2. unfold Drv.compute_perf, int_mul. cbv zeta.
  fold mpc clock cores. rewrite (wrap_int_exact (mpc * cores)) by exact H1.
  by apply wrap_int_exact.
Qed.

(** ** The driver-API error check *)

Lemma drv_check_ok E line err s :
  err = CUDA_SUCCESS -> Drv.checkCudaErrors E line err s = (Ret tt, s).
Proof. intros ->. reflexivity. Qed.

Lemma drv_check_fail E line err s :
  err <> CUDA_SUCCESS ->
  Drv.checkCudaErrors E line err s =
    (Exit (-1),
     emits s [Print stderr Drv.checkCudaErrors_fmt
                [AInt err; AStr (getCudaDrvErrorString E err);
                 AStr Drv.__FILE__; AInt line]]).
Proof.
  intros H. unfold_ops. unfold CUDA_SUCCESS in *.
  destruct (0 =? err) eqn:Heq; [lia | reflexivity].
Qed.

Lemma drv_check_cases E line err s :
  (err = CUDA_SUCCESS /\ Drv.checkCudaErrors E line err s = (Ret tt, s)) \/
  (err <> CUDA_SUCCESS /\ exists a,
      Drv.checkCudaErrors E line err s =
        (Exit (-1), emits s [Print stderr Drv.checkCudaErrors_fmt a])).
Proof.
  destruct (decide (err = CUDA_SUCCESS)) as [H|H].
  - left. split; [done | by apply drv_check_ok].
  - right. split; [done |]. eexists. by apply drv_check_fail.
Qed.

(** C2. For every status [err], [__checkCudaErrors] terminates the process
    (with [exit(-1)], right after one line on [stderr] carrying the status,
    its error string, the file and the line) exactly when [err] is not
    [CUDA_SUCCESS]; on [CUDA_SUCCESS] it returns with the state, log and
    heap, unchanged. *)
Theorem checkCudaErrors_exits_iff_error (E : env) (err : CUresult)
    (file : string) (line : Z) (s : state) :
  ((exists code s', Drv.__checkCudaErrors E err file line s = (Exit code, s'))
   <-> err <> CUDA_SUCCESS) /\
  Drv.__checkCudaErrors E err file line s =
    (if decide (err = CUDA_SUCCESS) then (Ret tt, s)
     else (Exit (-1),
           emits s [Print stderr Drv.checkCudaErrors_fmt
                      [AInt err; AStr (getCudaDrvErrorString E err);
                       AStr file; AInt line]])).
Proof.
  assert (Hrun : Drv.__checkCudaErrors E err file line s =
    (if decide (err = CUDA_SUCCESS) then (Ret tt, s)
     else (Exit (-1),
           emits s [Print stderr Drv.checkCudaErrors_fmt
                      [AInt err; AStr (getCudaDrvErrorString E err);
                       AStr file; AInt line]]))).
  { unfold_ops. unfold CUDA_SUCCESS.
    destruct (decide (err = 0)) as [->|Hne]; [reflexivity |].
    destruct (0 =? err) eqn:Heq; [lia | reflexivity]. }
  split; [| exact Hrun].
  rewrite Hrun. destruct (decide (err = CUDA_SUCCESS)) as [Heq|Hne].
  - split; [intros (c & s' & H); discriminate | done].
  - split; [done | eauto].
Qed.

(** ** The init helpers, path by path *)

(** [gpuDeviceInitDRV] has six paths; each is decided by the environment
    alone and appends its own lines to the log. *)
Lemma gpuDeviceInitDRV_run E argc argv s :
  Drv.gpuDeviceInitDRV E argc argv s =
    let dev := requested E argc argv in
    let count := snd (cuDeviceGetCount E) in
    let init := Native "cuInit" [0] in
    if negb (cuInit E 0 =? CUDA_SUCCESS) then
      (Exit (-1), emits s [init; Print stderr Drv.no_devices_fmt []])
    else if negb (fst (cuDeviceGetCount E) =? CUDA_SUCCESS) then
      (Exit (-1), emits s [init; drv_error_line E 53 (fst (cuDeviceGetCount E))])
    else if count =? 0 then
      (Exit (-1), emits s [init; Print stderr Drv.no_devices_fmt []])
    else if dev >? count - 1 then
      (Ret (- dev),
       emits s (init :: invalid_lines Drv.detected_fmt Drv.invalid_fmt count dev))
    else if negb (fst (cuDeviceGet E dev) =? CUDA_SUCCESS) then
      (Exit (-1), emits s [init; drv_error_line E 68 (fst (cuDeviceGet E dev))])
    else
      (Ret dev,
       emits s (init :: if quiet E argc argv then [] else [drv_using_line E dev])).
Proof.
  unfold Drv.gpuDeviceInitDRV, requested, quiet, drv_error_line,
    drv_using_line, invalid_lines, clamp.
  unfold_ops. unfold CUDA_SUCCESS. cbv zeta.
  destruct (cuInit E 0 =? 0) eqn:Hinit.
  - apply Z.eqb_eq in Hinit. rewrite Hinit. run_simpl.
    destruct (fst (cuDeviceGetCount E) =? 0) eqn:Hst.
    + apply Z.eqb_eq in Hst. rewrite Hst. run_simpl.
      destruct (snd (cuDeviceGetCount E) =? 0); [finish_run |].
      destruct (_ >? _); [finish_run |].
      destruct (fst (cuDeviceGet E _) =? 0) eqn:Hget.
      * apply Z.eqb_eq in Hget. rewrite Hget. run_simpl.
        destruct (checkCmdLineFlag E argc argv "quiet"); finish_run.
      * rewrite Z.eqb_sym, Hget. finish_run.
    + rewrite Z.eqb_sym, Hst. finish_run.
  - rewrite Z.eqb_sym, Hinit. finish_run.
Qed.

(** [gpuGLDeviceInit] has seven. *)
Lemma gpuGLDeviceInit_run E argc argv s :
  GL.gpuGLDeviceInit E argc argv s =
    let dev := requested E argc argv in
    let count := snd (cudaGetDeviceCount E) in
    let shown := if quiet E argc argv then [] else [gl_using_line E dev] in
    let bound := Native "cudaGLSetGLDevice" [dev] in
    if negb (fst (cudaGetDeviceCount E) =? cudaSuccess) then
      (Exit (cudaCheckExitCode E),
       emits s [rt_error_line E 21 (fst (cudaGetDeviceCount E))])
    else if count =? 0 then
      (Exit (-1), emits s [Print stderr GL.no_devices_fmt []])
    else if dev >? count - 1 then
      (Ret (- dev),
       emits s (invalid_lines GL.detected_fmt GL.invalid_fmt count dev))
    else if negb (fst (cudaGetDeviceProperties E dev) =? cudaSuccess) then
      (Exit (cudaCheckExitCode E),
       emits s [rt_error_line E 38 (fst (cudaGetDeviceProperties E dev))])
    else if prop_major (snd (cudaGetDeviceProperties E dev)) <? 1 then
      (Exit (-1), emits s [Print stderr GL.no_cuda_fmt []])
    else if negb (cudaGLSetGLDevice E dev =? cudaSuccess) then
      (Exit (cudaCheckExitCode E),
       emits s (shown ++ [bound; rt_error_line E 46 (cudaGLSetGLDevice E dev)]))
    else
      (Ret dev, emits s (shown ++ [bound])).
Proof.
  unfold GL.gpuGLDeviceInit, requested, quiet, rt_error_line, gl_using_line,
    invalid_lines, clamp.
  unfold_ops. unfold cudaSuccess. cbv zeta.
  destruct (fst (cudaGetDeviceCount E) =? 0) eqn:Hst.
  - apply Z.eqb_eq in Hst. rewrite Hst. run_simpl.
    destruct (snd (cudaGetDeviceCount E) =? 0); [finish_run |].
    destruct (_ >? _); [finish_run |].
    destruct (fst (cudaGetDeviceProperties E _) =? 0) eqn:Hp.
    + apply Z.eqb_eq in Hp. rewrite Hp. run_simpl.
      destruct (_ <? 1); [finish_run |].
      destruct (cudaGLSetGLDevice E _ =? 0) eqn:Hset.
      * apply Z.eqb_eq in Hset. rewrite Hset.
        destruct (checkCmdLineFlag E argc argv "quiet"); finish_run.
      * rewrite (Z.eqb_sym 0), Hset.
        destruct (checkCmdLineFlag E argc argv "quiet"); run_simpl; finish_run.
    + rewrite Z.eqb_sym, Hp. finish_run.
  - rewrite Z.eqb_sym, Hst. finish_run.
Qed.

(** The init helpers read the command line through two questions only:
    the integer after [device=] and the presence of [quiet]. *)
Lemma init_helpers_read_two_flags E f g argc argv s :
  f argc argv "device=" = getCmdLineArgumentInt E argc argv "device=" ->
  g argc argv "quiet" = checkCmdLineFlag E argc argv "quiet" ->
  Drv.gpuDeviceInitDRV (with_cmdline E f g) argc argv s =
    Drv.gpuDeviceInitDRV E argc argv s /\
  GL.gpuGLDeviceInit (with_cmdline E f g) argc argv s =
    GL.gpuGLDeviceInit E argc argv s.
Proof.
  intros Hf Hg.
  rewrite !gpuDeviceInitDRV_run, !gpuGLDeviceInit_run.
  unfold requested, quiet, drv_using_line, gl_using_line, drv_error_line,
    rt_error_line. cbn [with_cmdline getCmdLineArgumentInt checkCmdLineFlag
    cuInit cuDeviceGetCount cuDeviceGet cuDeviceGetName getCudaDrvErrorString
    cudaGetDeviceCount cudaGetDeviceProperties cudaGLSetGLDevice
    cudaGetErrorString cudaCheckFormat cudaCheckExitCode].
  rewrite Hf, Hg. split; reflexivity.
Qed.

(** ** Membership in what a run printed *)

Ltac other_line H :=
  solve [ discriminate H | inversion H ].

Ltac not_printed :=
  let H := fresh "Hin" in
  intros H;
  repeat (apply elem_of_cons in H as [H|H]; [other_line H |]);
  apply elem_of_nil in H; exact H.

(** C7. The init helpers consult the command line for [device=<N>] and
    [quiet] only.  With [quiet] present neither [gpuDeviceInitDRV] nor
    [gpuGLDeviceInit] prints a "Using device" line, whatever the outcome;
    with [quiet] absent, a run that returns a valid index printed that
    index and the device's name (and did nothing else beyond the native
    calls [cuInit], respectively [cudaGLSetGLDevice]). *)
Theorem quiet_flag_controls_using_line (E : env) (argc : Z)
    (argv : list string) (s : state) :
  (forall f g,
     f argc argv "device=" = getCmdLineArgumentInt E argc argv "device=" ->
     g argc argv "quiet" = checkCmdLineFlag E argc argv "quiet" ->
     Drv.gpuDeviceInitDRV (with_cmdline E f g) argc argv s =
       Drv.gpuDeviceInitDRV E argc argv s /\
     GL.gpuGLDeviceInit (with_cmdline E f g) argc argv s =
       GL.gpuGLDeviceInit E argc argv s) /\
  (quiet E argc argv = true ->
   forall st d n,
     (Print st Drv.using_fmt [AInt d; AStr n]
        ∉ emitted (Drv.gpuDeviceInitDRV E argc argv) s) /\
     (Print st GL.using_fmt [AInt d; AStr n]
        ∉ emitted (GL.gpuGLDeviceInit E argc argv) s)) /\
  (quiet E argc argv = false ->
   (forall dev s',
      Drv.gpuDeviceInitDRV E argc argv s = (Ret dev, s') ->
      0 <= dev <= snd (cuDeviceGetCount E) - 1 ->
      s' = emits s [Native "cuInit" [0]; drv_using_line E dev]) /\
   (forall dev s',
      GL.gpuGLDeviceInit E argc argv s = (Ret dev, s') ->
      0 <= dev <= snd (cudaGetDeviceCount E) - 1 ->
      s' = emits s [gl_using_line E dev;
                    Native "cudaGLSetGLDevice" [dev]])).
Proof.
  split; [intros f g; apply init_helpers_read_two_flags |].
  split.
  - intros Hq st d n. unfold emitted.
    rewrite gpuDeviceInitDRV_run, gpuGLDeviceInit_run. cbv zeta.
    rewrite Hq. unfold invalid_lines, drv_error_line, rt_error_line.
    split.
    + repeat (match goal with
              | |- context [if ?b then _ else _] => destruct b
              end);
        cbn [snd log emits]; rewrite drop_app_length; not_printed.
    + repeat (match goal with
              | |- context [if ?b then _ else _] => destruct b
              end);
        cbn [snd log emits app]; rewrite drop_app_length; not_printed.
  - intros Hq. split; intros dev s' Hrun Hrange.
    + rewrite gpuDeviceInitDRV_run in Hrun. cbv zeta in Hrun.
      rewrite Hq in Hrun.
      repeat (match type of Hrun with
              | context [if ?b then _ else _] => destruct b eqn:?
              end); inversion Hrun; subst; try reflexivity.
      unfold requested, clamp in *. lia.
    + rewrite gpuGLDeviceInit_run in Hrun. cbv zeta in Hrun.
      rewrite Hq in Hrun.
      repeat (match type of Hrun with
              | context [if ?b then _ else _] => destruct b eqn:?
              end); inversion Hrun; subst; try reflexivity.
      unfold requested, clamp in *. lia.
Qed.

Lemma requested_nonneg E argc argv : 0 <= requested E argc argv.
Proof.
  unfold requested, clamp.
  destruct (_ <? 0) eqn:H; [lia | apply Z.ltb_ge in H; lia].
Qed.

Lemma requested_negative E argc argv :
  getCmdLineArgumentInt E argc argv "device=" < 0 -> requested E argc argv = 0.
Proof.
  intros H. unfold requested, clamp.
  destruct (_ <? 0) eqn:Hlt; [reflexivity | apply Z.ltb_ge in Hlt; lia].
Qed.

Lemma requested_with_device_arg E n argc argv :
  requested (with_device_arg E n) argc argv = clamp n.
Proof. reflexivity. Qed.

(** C8. When the value parsed for [device=] is negative, both init helpers
    work with index 0: the run is, event for event, the run for
    [device=0] (so nothing reports the change), and on a machine with at
    least one device whose queries succeed the helper returns 0 instead of
    rejecting the argument. *)
Theorem negative_device_is_clamped_to_zero (E : env) (argc : Z)
    (argv : list string) (s : state) :
  getCmdLineArgumentInt E argc argv "device=" < 0 ->
  requested E argc argv = 0 /\
  Drv.gpuDeviceInitDRV E argc argv s =
    Drv.gpuDeviceInitDRV (with_device_arg E 0) argc argv s /\
  GL.gpuGLDeviceInit E argc argv s =
    GL.gpuGLDeviceInit (with_device_arg E 0) argc argv s /\
  (cuInit E 0 = CUDA_SUCCESS ->
   fst (cuDeviceGetCount E) = CUDA_SUCCESS ->
   1 <= snd (cuDeviceGetCount E) ->
   fst (cuDeviceGet E 0) = CUDA_SUCCESS ->
   Drv.gpuDeviceInitDRV E argc argv s =
     (Ret 0,
      emits s (Native "cuInit" [0] ::
               if quiet E argc argv then [] else [drv_using_line E 0]))) /\
  (fst (cudaGetDeviceCount E) = cudaSuccess ->
   1 <= snd (cudaGetDeviceCount E) ->
   fst (cudaGetDeviceProperties E 0) = cudaSuccess ->
   1 <= prop_major (snd (cudaGetDeviceProperties E 0)) ->
   cudaGLSetGLDevice E 0 = cudaSuccess ->
   GL.gpuGLDeviceInit E argc argv s =
     (Ret 0,
      emits s ((if quiet E argc argv then [] else [gl_using_line E 0]) ++
               [Native "cudaGLSetGLDevice" [0]]))).
Proof.
  intros Hneg. pose proof (requested_negative E argc argv Hneg) as Hreq.
  split; [exact Hreq |].
  split; [| split; [| split]].
  - rewrite !gpuDeviceInitDRV_run, requested_with_device_arg, Hreq.
    reflexivity.
  - rewrite !gpuGLDeviceInit_run, requested_with_device_arg, Hreq.
    reflexivity.
  - intros Hinit Hst Hcount Hget.
    rewrite gpuDeviceInitDRV_run. cbv zeta. rewrite Hreq, Hinit, Hst, Hget.
    unfold CUDA_SUCCESS. cbn [negb Z.eqb].
    destruct (snd (cuDeviceGetCount E) =? 0) eqn:H0; [lia |].
    destruct (0 >? snd (cuDeviceGetCount E) - 1) eqn:H1; [lia | reflexivity].
  - intros Hst Hcount Hprop Hmajor Hset.
    rewrite gpuGLDeviceInit_run. cbv zeta. rewrite Hreq, Hst, Hprop, Hset.
    unfold cudaSuccess. cbn [negb Z.eqb].
    destruct (snd (cudaGetDeviceCount E) =? 0) eqn:H0; [lia |].
    destruct (0 >? snd (cudaGetDeviceCount E) - 1) eqn:H1; [lia |].
    destruct (_ <? 1) eqn:H2; [lia | reflexivity].
Qed.

(** C9. Once [gpuGLDeviceInit] has a valid index and the device's
    properties, a major version below 1 ends the process with [exit(-1)]
    right after the line "Error: device does not support CUDA." on
    [stderr], and a major version of at least 1 leads to the call of
    [cudaGLSetGLDevice] and, when that call succeeds, to the return of the
    index.  Conversely no run calls [cudaGLSetGLDevice], and no run returns
    a valid index, unless the major version is at least 1. *)
Theorem gpuGLDeviceInit_needs_major_1 (E : env) (argc : Z)
    (argv : list string) (s : state) :
  let dev := requested E argc argv in
  let count := snd (cudaGetDeviceCount E) in
  let major := prop_major (snd (cudaGetDeviceProperties E dev)) in
  let reached :=
    fst (cudaGetDeviceCount E) = cudaSuccess /\ count <> 0 /\
    dev <= count - 1 /\ fst (cudaGetDeviceProperties E dev) = cudaSuccess in
  (reached -> major < 1 ->
   GL.gpuGLDeviceInit E argc argv s =
     (Exit (-1), emits s [Print stderr GL.no_cuda_fmt []])) /\
  (reached -> 1 <= major ->
   Native "cudaGLSetGLDevice" [dev]
     ∈ emitted (GL.gpuGLDeviceInit E argc argv) s /\
   (cudaGLSetGLDevice E dev = cudaSuccess ->
    GL.gpuGLDeviceInit E argc argv s =
      (Ret dev,
       emits s ((if quiet E argc argv then [] else [gl_using_line E dev]) ++
                [Native "cudaGLSetGLDevice" [dev]])))) /\
  ((exists a, Native "cudaGLSetGLDevice" a
                ∈ emitted (GL.gpuGLDeviceInit E argc argv) s) ->
   reached /\ 1 <= major) /\
  (forall d s',
     GL.gpuGLDeviceInit E argc argv s = (Ret d, s') ->
     0 <= d <= count - 1 ->
     d = dev /\ reached /\ 1 <= major).
Proof.
  intros dev count major reached.
  assert (Hrun := gpuGLDeviceInit_run E argc argv s).
  cbv zeta in Hrun. fold dev count major in Hrun.
  unfold cudaSuccess in *. unfold reached.
  split; [| split; [| split]].
  - intros (Hst & H0 & H1 & Hp) Hm. rewrite Hrun, Hst, Hp. cbn [negb Z.eqb].
    destruct (count =? 0) eqn:?; [lia |].
    destruct (dev >? count - 1) eqn:?; [lia |].
    destruct (major <? 1) eqn:?; [reflexivity | lia].
  - intros (Hst & H0 & H1 & Hp) Hm.
    rewrite Hst, Hp in Hrun. cbn [negb Z.eqb] in Hrun.
    destruct (count =? 0) eqn:?; [lia |].
    destruct (dev >? count - 1) eqn:?; [lia |].
    destruct (major <? 1) eqn:?; [lia |].
    split.
    + unfold emitted. rewrite Hrun.
      destruct (negb (cudaGLSetGLDevice E dev =? 0));
        cbn [snd log emits]; rewrite drop_app_length;
        destruct (quiet E argc argv); cbn [app]; set_solver.
    + intros Hset. rewrite Hrun, Hset. reflexivity.
  - intros [a Hin]. unfold emitted in Hin. rewrite Hrun in Hin.
    unfold invalid_lines, rt_error_line, gl_using_line in Hin.
    split_paths Hin;
      cbn [snd log emits app] in Hin; rewrite drop_app_length in Hin;
      try (exfalso; revert Hin; not_printed); lia.
  - intros d s' Hret Hd. rewrite Hrun in Hret.
    split_paths Hret; inversion Hret; subst; lia.
Qed.

(** ** The two loops of [getMaxGflopsDeviceIdDRV] *)

(** The recursion on the number of iterations left satisfies the equation
    of the [while] loop of lines 89-95 ... *)
Lemma best_arch_while_eq E device_count current_device best_SM_arch s :
  Drv.best_arch_while E device_count current_device best_SM_arch s =
    (if current_device <? device_count then
       Drv.checkCudaErrors E 90
         (fst (cuDeviceComputeCapability E current_device)) ;;
       let major := Drv.major_of E current_device in
       Drv.best_arch_while E device_count (current_device + 1)
         (if (major >? 0) && (major <? 9999) then MAX best_SM_arch major
          else best_SM_arch)
     else ret best_SM_arch) s.
Proof.
  unfold Drv.best_arch_while.
  destruct (current_device <? device_count) eqn:Hlt.
  - apply Z.ltb_lt in Hlt.
    replace (Z.to_nat (device_count - current_device))
      with (S (Z.to_nat (device_count - (current_device + 1)))) by lia.
    reflexivity.
  - apply Z.ltb_ge in Hlt.
    replace (Z.to_nat (device_count - current_device)) with O by lia.
    reflexivity.
Qed.

(** ... and so does the one of lines 99-129. *)
Lemma best_perf_while_eq E device_count best_SM_arch current_device
    max_compute_perf max_perf_device s :
  Drv.best_perf_while E device_count best_SM_arch current_device
      max_compute_perf max_perf_device s =
    (if current_device <? device_count then
       Drv.checkCudaErrors E 100
         (fst (cuDeviceGetAttribute E CU_DEVICE_ATTRIBUTE_MULTIPROCESSOR_COUNT
                 current_device)) ;;
       Drv.checkCudaErrors E 103
         (fst (cuDeviceGetAttribute E CU_DEVICE_ATTRIBUTE_CLOCK_RATE
                 current_device)) ;;
       Drv.checkCudaErrors E 106
         (fst (cuDeviceComputeCapability E current_device)) ;;
       let major := Drv.major_of E current_device in
       let compute_perf := Drv.compute_perf E current_device in
       let '(max_compute_perf, max_perf_device) :=
         if compute_perf >? max_compute_perf then
           if best_SM_arch >? 2 then
             if major =? best_SM_arch then (compute_perf, current_device)
             else (max_compute_perf, max_perf_device)
           else (compute_perf, current_device)
         else (max_compute_perf, max_perf_device) in
       Drv.best_perf_while E device_count best_SM_arch (current_device + 1)
         max_compute_perf max_perf_device
     else ret max_perf_device) s.
Proof.
  unfold Drv.best_perf_while.
  destruct (current_device <? device_count) eqn:Hlt.
  - apply Z.ltb_lt in Hlt.
    replace (Z.to_nat (device_count - current_device))
      with (S (Z.to_nat (device_count - (current_device + 1)))) by lia.
    reflexivity.
  - apply Z.ltb_ge in Hlt.
    replace (Z.to_nat (device_count - current_device)) with O by lia.
    reflexivity.
Qed.

Lemma best_arch_loop_cases E n cur best s :
  returns_or_fails E (Drv.best_arch_loop E n cur best)
    (best_arch_of E n cur best) s.
Proof.
  revert cur best. induction n as [|n IH]; intros cur best.
  - left. reflexivity.
  - cbn [Drv.best_arch_loop best_arch_of].
    destruct (drv_check_cases E 90 (fst (cuDeviceComputeCapability E cur)) s)
      as [[_ Hok] | [Hne [a Hfail]]].
    + unfold returns_or_fails. rewrite (bind_Ret _ _ _ _ _ Hok).
      apply IH.
    + right. exists 90, (fst (cuDeviceComputeCapability E cur)).
      split; [exact Hne |].
      rewrite (bind_Exit _ _ _ _ _ (drv_check_fail E 90 _ s Hne)).
      reflexivity.
Qed.

Lemma best_arch_loop_ok E n cur best s :
  (forall i, cur <= i < cur + Z.of_nat n ->
             fst (cuDeviceComputeCapability E i) = CUDA_SUCCESS) ->
  Drv.best_arch_loop E n cur best s = (Ret (best_arch_of E n cur best), s).
Proof.
  revert cur best. induction n as [|n IH]; intros cur best Hok.
  - reflexivity.
  - cbn [Drv.best_arch_loop best_arch_of].
    rewrite (bind_Ret _ _ _ _ _ (drv_check_ok E 90 _ s (Hok cur ltac:(lia)))).
    apply IH. intros i Hi. apply Hok. lia.
Qed.

(** The update of lines 115-127, as the pure recursion phrases it. *)
Lemma best_perf_update E best cur mp md :
  (if Drv.compute_perf E cur >? mp then
     if best >? 2 then
       if Drv.major_of E cur =? best then (Drv.compute_perf E cur, cur)
       else (mp, md)
     else (Drv.compute_perf E cur, cur)
   else (mp, md)) =
  (if (Drv.compute_perf E cur >? mp) && eligible E best cur
   then (Drv.compute_perf E cur, cur) else (mp, md)).
Proof.
  unfold eligible.
  destruct (_ >? mp); [| reflexivity].
  destruct (best >? 2); [| reflexivity].
  destruct (_ =? best); reflexivity.
Qed.

Lemma max_perf_of_step E best n cur mp md :
  max_perf_of E best (S n) cur mp md =
    let '(mp', md') :=
      if (Drv.compute_perf E cur >? mp) && eligible E best cur
      then (Drv.compute_perf E cur, cur) else (mp, md) in
    max_perf_of E best n (cur + 1) mp' md'.
Proof. cbn [max_perf_of]. destruct (_ && _); reflexivity. Qed.

Lemma best_perf_loop_step E best n cur mp md s :
  device_queries_ok E cur = true ->
  Drv.best_perf_loop E best (S n) cur mp md s =
    (let '(mp', md') :=
       if (Drv.compute_perf E cur >? mp) && eligible E best cur
       then (Drv.compute_perf E cur, cur) else (mp, md) in
     Drv.best_perf_loop E best n (cur + 1) mp' md') s.
Proof.
  unfold device_queries_ok. intros Hok.
  apply andb_prop in Hok as [Hok H3]. apply andb_prop in Hok as [H1 H2].
  apply Z.eqb_eq in H1, H2, H3.
  cbn [Drv.best_perf_loop].
  rewrite (bind_Ret _ _ _ _ _ (drv_check_ok E 100 _ s H2)).
  rewrite (bind_Ret _ _ _ _ _ (drv_check_ok E 103 _ s H3)).
  rewrite (bind_Ret _ _ _ _ _ (drv_check_ok E 106 _ s H1)).
  cbv zeta. rewrite best_perf_update. reflexivity.
Qed.

Lemma best_perf_loop_stop E best n cur mp md s :
  device_queries_ok E cur = false ->
  exists line err,
    err <> CUDA_SUCCESS /\
    Drv.best_perf_loop E best (S n) cur mp md s =
      (Exit (-1), emits s [drv_error_line E line err]).
Proof.
  unfold device_queries_ok. intros Hbad. cbn [Drv.best_perf_loop].
  destruct (drv_check_cases E 100
              (fst (cuDeviceGetAttribute E
                      CU_DEVICE_ATTRIBUTE_MULTIPROCESSOR_COUNT cur)) s)
    as [[H2 Hok2] | [Hne _]].
  2: { eexists _, _. split; [exact Hne |].
       rewrite (bind_Exit _ _ _ _ _ (drv_check_fail E 100 _ s Hne)).
       reflexivity. }
  rewrite (bind_Ret _ _ _ _ _ Hok2).
  destruct (drv_check_cases E 103
              (fst (cuDeviceGetAttribute E
                      CU_DEVICE_ATTRIBUTE_CLOCK_RATE cur)) s)
    as [[H3 Hok3] | [Hne _]].
  2: { eexists _, _. split; [exact Hne |].
       rewrite (bind_Exit _ _ _ _ _ (drv_check_fail E 103 _ s Hne)).
       reflexivity. }
  rewrite (bind_Ret _ _ _ _ _ Hok3).
  destruct (drv_check_cases E 106 (fst (cuDeviceComputeCapability E cur)) s)
    as [[H1 Hok1] | [Hne _]].
  2: { eexists _, _. split; [exact Hne |].
       rewrite (bind_Exit _ _ _ _ _ (drv_check_fail E 106 _ s Hne)).
       reflexivity. }
  rewrite H1, H2, H3 in Hbad. discriminate Hbad.
Qed.

Lemma best_perf_loop_cases E best n cur mp md s :
  returns_or_fails E (Drv.best_perf_loop E best n cur mp md)
    (snd (max_perf_of E best n cur mp md)) s.
Proof.
  revert cur mp md. induction n as [|n IH]; intros cur mp md.
  - left. reflexivity.
  - destruct (device_queries_ok E cur) eqn:Hok.
    + unfold returns_or_fails.
      rewrite (best_perf_loop_step _ _ _ _ _ _ _ Hok), max_perf_of_step.
      destruct (_ && _); apply IH.
    + right. by apply best_perf_loop_stop.
Qed.

Lemma best_perf_loop_ok E best n cur mp md s :
  (forall i, cur <= i < cur + Z.of_nat n -> device_queries_ok E i = true) ->
  Drv.best_perf_loop E best n cur mp md s =
    (Ret (snd (max_perf_of E best n cur mp md)), s).
Proof.
  revert cur mp md. induction n as [|n IH]; intros cur mp md Hok.
  - reflexivity.
  - rewrite (best_perf_loop_step _ _ _ _ _ _ _ (Hok cur ltac:(lia))),
      max_perf_of_step.
    destruct (_ && _); apply IH; intros i Hi; apply Hok; lia.
Qed.

(** ** [getMaxGflopsDeviceIdDRV], path by path *)

Lemma enumeration_ok_spec E :
  enumeration_ok E = true <->
  fst (cuDeviceGetCount E) = CUDA_SUCCESS /\
  forall i, 0 <= i < snd (cuDeviceGetCount E) -> device_queries_ok E i = true.
Proof.
  unfold enumeration_ok. rewrite andb_true_iff, Z.eqb_eq, forallb_forall.
  split; intros [H1 H2]; (split; [exact H1 |]).
  - intros i Hi. apply H2. apply list_elem_of_In, elem_of_seqZ. lia.
  - intros i Hi. apply list_elem_of_In, elem_of_seqZ in Hi. apply H2. lia.
Qed.

Lemma getMaxGflopsDeviceIdDRV_unfold E s :
  Drv.getMaxGflopsDeviceIdDRV E s =
    (Drv.checkCudaErrors E 86 (fst (cuDeviceGetCount E)) ;;
     best <- Drv.best_arch_while E (snd (cuDeviceGetCount E)) 0 0 ;;
     Drv.best_perf_while E (snd (cuDeviceGetCount E)) best 0 0 0)
      (emits s [Native "cuInit" [0]]).
Proof. reflexivity. Qed.

(** On a machine whose enumeration succeeds the selection returns the
    device the pure recursion names, after the single call of [cuInit]. *)
Lemma getMaxGflopsDeviceIdDRV_ok E s :
  enumeration_ok E = true ->
  Drv.getMaxGflopsDeviceIdDRV E s =
    (Ret (max_perf_device E), emits s [Native "cuInit" [0]]).
Proof.
  intros Hok. apply enumeration_ok_spec in Hok as [Hst Hq].
  rewrite getMaxGflopsDeviceIdDRV_unfold.
  rewrite (bind_Ret _ _ _ _ _ (drv_check_ok E 86 _ _ Hst)).
  unfold Drv.best_arch_while, Drv.best_perf_while.
  rewrite Z.sub_0_r.
  erewrite bind_Ret; [| apply best_arch_loop_ok].
  - rewrite best_perf_loop_ok; [reflexivity |].
    intros i Hi. apply Hq. lia.
  - intros i Hi. specialize (Hq i ltac:(lia)).
    unfold device_queries_ok in Hq.
    apply andb_prop in Hq as [Hq _]. apply andb_prop in Hq as [Hq _].
    by apply Z.eqb_eq in Hq.
Qed.

(** In general it returns that device or stops with one error line. *)
Lemma getMaxGflopsDeviceIdDRV_cases E s :
  Drv.getMaxGflopsDeviceIdDRV E s =
    (Ret (max_perf_device E), emits s [Native "cuInit" [0]]) \/
  exists line err,
    err <> CUDA_SUCCESS /\
    Drv.getMaxGflopsDeviceIdDRV E s =
      (Exit (-1), emits s [Native "cuInit" [0]; drv_error_line E line err]).
Proof.
  rewrite getMaxGflopsDeviceIdDRV_unfold.
  set (s1 := emits s [Native "cuInit" [0]]).
  destruct (drv_check_cases E 86 (fst (cuDeviceGetCount E)) s1)
    as [[Hst Hok] | [Hne _]].
  2: { right. eexists _, _. split; [exact Hne |].
       rewrite (bind_Exit _ _ _ _ _ (drv_check_fail E 86 _ s1 Hne)).
       subst s1. rewrite emits_emits. reflexivity. }
  rewrite (bind_Ret _ _ _ _ _ Hok).
  unfold Drv.best_arch_while, Drv.best_perf_while. rewrite Z.sub_0_r.
  destruct (best_arch_loop_cases E (Z.to_nat (snd (cuDeviceGetCount E)))
              0 0 s1) as [Hb | (line & err & Hne & Hb)].
  2: { right. exists line, err. split; [exact Hne |].
       rewrite (bind_Exit _ _ _ _ _ Hb). subst s1. rewrite emits_emits.
       reflexivity. }
  rewrite (bind_Ret _ _ _ _ _ Hb).
  destruct (best_perf_loop_cases E
              (best_arch_of E (Z.to_nat (snd (cuDeviceGetCount E))) 0 0)
              (Z.to_nat (snd (cuDeviceGetCount E))) 0 0 0 s1)
    as [Hp | (line & err & Hne & Hp)].
  - left. exact Hp.
  - right. exists line, err. split; [exact Hne |].
    rewrite Hp. subst s1. rewrite emits_emits. reflexivity.
Qed.

(** ** What the pure recursions compute *)

Lemma MAX_max a b : MAX a b = Z.max a b.
Proof. unfold MAX. destruct (a >? b) eqn:H; lia. Qed.

Section Scan.

Variable E : env.

(** [best_SM_arch] never decreases, bounds the major version of every
    visited device that passes the guard, and is the initial value or the
    major version of such a device. *)
Lemma best_arch_of_spec n cur best :
  let r := best_arch_of E n cur best in
  best <= r /\
  (forall i, cur <= i < cur + Z.of_nat n ->
             qualifies (Drv.major_of E i) = true -> Drv.major_of E i <= r) /\
  (r = best \/
   exists i, cur <= i < cur + Z.of_nat n /\
             qualifies (Drv.major_of E i) = true /\ Drv.major_of E i = r).
Proof.
  revert cur best. induction n as [|n IH]; intros cur best.
  - cbn. split; [lia |]. split; [intros i Hi; lia | by left].
  - cbn [best_arch_of]. cbv zeta.
    set (b := if qualifies (Drv.major_of E cur)
              then MAX best (Drv.major_of E cur) else best).
    destruct (IH (cur + 1) b) as (Hle & Hub & Hex).
    assert (Hb : best <= b).
    { subst b. destruct (qualifies _); [rewrite MAX_max |]; lia. }
    split; [lia |]. split.
    + intros i Hi Hq. destruct (decide (i = cur)) as [->|Hne].
      * assert (Drv.major_of E cur <= b)
          by (subst b; rewrite Hq, MAX_max; lia).
        lia.
      * apply Hub; [lia | exact Hq].
    + destruct Hex as [Hr | (i & Hi & Hq & Hr)].
      * subst b. destruct (qualifies (Drv.major_of E cur)) eqn:Hq.
        -- rewrite MAX_max in *.
           destruct (Z.max_spec best (Drv.major_of E cur)) as [[_ Hm]|[_ Hm]].
           ++ right. exists cur. split; [lia |]. split; [exact Hq | lia].
           ++ left. lia.
        -- by left.
      * right. exists i. split; [lia |]. by split.
Qed.

Variable best : Z.

(** The invariant of the second loop.  [max_compute_perf] never decreases
    and bounds the score of every eligible device visited; the pair is
    unchanged, or [max_perf_device] is an eligible visited device whose
    score is [max_compute_perf], strictly above the initial value and
    strictly above the score of every eligible device visited before
    it. *)
Lemma max_perf_of_spec n cur mp md :
  let r := max_perf_of E best n cur mp md in
  mp <= fst r /\
  (forall i, cur <= i < cur + Z.of_nat n -> eligible E best i = true ->
             Drv.compute_perf E i <= fst r) /\
  (r = (mp, md) \/
   cur <= snd r < cur + Z.of_nat n /\
   eligible E best (snd r) = true /\
   Drv.compute_perf E (snd r) = fst r /\
   mp < fst r /\
   forall i, cur <= i < snd r -> eligible E best i = true ->
             Drv.compute_perf E i < fst r).
Proof.
  revert cur mp md. induction n as [|n IH]; intros cur mp md.
  - cbn. split; [lia |]. split; [intros i Hi; lia | by left].
  - cbn [max_perf_of]. cbv zeta.
    destruct ((Drv.compute_perf E cur >? mp) && eligible E best cur) eqn:Hup.
    + apply andb_prop in Hup as [Hgt Hel].
      destruct (IH (cur + 1) (Drv.compute_perf E cur) cur)
        as (Hle & Hub & Hres).
      split; [lia |]. split.
      * intros i Hi He. destruct (decide (i = cur)) as [->|Hne]; [lia |].
        apply Hub; [lia | exact He].
      * right. destruct Hres as [-> | (Hr & He & Hp & Hlt & Hbefore)].
        -- cbn [fst snd]. split; [lia |]. split; [exact Hel |].
           split; [reflexivity |]. split; [lia |]. intros i Hi; lia.
        -- split; [lia |]. split; [exact He |]. split; [exact Hp |].
           split; [lia |]. intros i Hi Hei.
           destruct (decide (i = cur)) as [->|Hne]; [lia |].
           apply Hbefore; [lia | exact Hei].
    + destruct (IH (cur + 1) mp md) as (Hle & Hub & Hres).
      split; [lia |]. split.
      * intros i Hi He. destruct (decide (i = cur)) as [->|Hne].
        -- rewrite He, andb_true_r in Hup. lia.
        -- apply Hub; [lia | exact He].
      * destruct Hres as [Hr | (Hr & He & Hp & Hlt & Hbefore)];
          [by left | right].
        split; [lia |]. split; [exact He |]. split; [exact Hp |].
        split; [lia |]. intros i Hi Hei.
        destruct (decide (i = cur)) as [->|Hne].
        -- rewrite Hei, andb_true_r in Hup. lia.
        -- apply Hbefore; [lia | exact Hei].
Qed.

End Scan.

(** ** The device [getMaxGflopsDeviceIdDRV] returns *)

(** The selected device, read off the two invariants. *)
Lemma max_perf_device_spec E :
  let count := snd (cuDeviceGetCount E) in
  let best := best_SM_arch E in
  let d := max_perf_device E in
  (1 <= count -> 0 <= d < count) /\
  (count <= 0 -> d = 0) /\
  (forall i, 0 <= i < d -> eligible E best i = true ->
             Drv.compute_perf E i < Drv.compute_perf E d) /\
  ((exists i, 0 <= i < count /\ eligible E best i = true /\
              0 < Drv.compute_perf E i) ->
   0 <= d < count /\ eligible E best d = true /\
   0 < Drv.compute_perf E d /\
   forall i, 0 <= i < count -> eligible E best i = true ->
             Drv.compute_perf E i <= Drv.compute_perf E d) /\
  ((forall i, 0 <= i < count -> eligible E best i = true ->
              Drv.compute_perf E i <= 0) ->
   d = 0).
Proof.
  intros count best d. subst d. unfold max_perf_device. fold count best.
  destruct (max_perf_of_spec E best (Z.to_nat count) 0 0 0)
    as (Hle & Hub & Hres).
  cbv zeta in *.
  set (r := max_perf_of E best (Z.to_nat count) 0 0 0) in *.
  destruct Hres as [Hr | (Hrange & Hel & Hperf & Hpos & Hbefore)].
  - rewrite Hr in *. cbn [fst snd] in *.
    split; [lia |]. split; [reflexivity |]. split; [intros i Hi; lia |].
    split; [| reflexivity].
    intros (i & Hi & Hei & Hpi). specialize (Hub i ltac:(lia) Hei). lia.
  - split; [lia |]. split; [lia |]. split.
    + intros i Hi Hei. rewrite Hperf. apply Hbefore; [lia | exact Hei].
    + split.
      * intros _. split; [lia |]. split; [exact Hel |]. split; [lia |].
        intros i Hi Hei. rewrite Hperf. apply Hub; [lia | exact Hei].
      * intros Hnone. specialize (Hnone (snd r) ltac:(lia) Hel). lia.
Qed.

(** The best major version, read off the first invariant. *)
Lemma best_SM_arch_spec E :
  let count := snd (cuDeviceGetCount E) in
  let best := best_SM_arch E in
  (forall i, 0 <= i < count -> qualifies (Drv.major_of E i) = true ->
             Drv.major_of E i <= best) /\
  (best = 0 \/
   exists i, 0 <= i < count /\ qualifies (Drv.major_of E i) = true /\
             Drv.major_of E i = best).
Proof.
  intros count best.
  destruct (best_arch_of_spec E (Z.to_nat count) 0 0) as (_ & Hub & Hex).
  fold (best_SM_arch E) in *. split.
  - intros i Hi Hq. apply Hub; [lia | exact Hq].
  - destruct Hex as [H0 | (i & Hi & Hq & Hm)]; [by left | right].
    exists i. split; [lia |]. by split.
Qed.

(** C10 (as stated) fails: on [mixed_machine] the two Kepler boards at
    indices 2 and 3 are the eligible ones and tie, with score 0, for the
    maximal score; index 0, a Fermi board, is returned. *)
Lemma tie_of_score_0_returns_index_0 :
  Drv.getMaxGflopsDeviceIdDRV mixed_machine empty_state =
    (Ret 0, emits empty_state [Native "cuInit" [0]]) /\
  best_SM_arch mixed_machine = 3 /\
  eligible mixed_machine 3 0 = false /\
  ~ returns_lowest_eligible_of_max_score mixed_machine.
Proof.
  split; [vm_compute; reflexivity |].
  split; [vm_compute; reflexivity |].
  split; [vm_compute; reflexivity |].
  intros H. unfold returns_lowest_eligible_of_max_score in H.
  destruct (H empty_state 0 (emits empty_state [Native "cuInit" [0]])
              ltac:(vm_compute; reflexivity) ltac:(cbn; lia))
    as (Hel & _).
  vm_compute in Hel. discriminate Hel.
Qed.

(** C10 (as amended). On a machine whose enumeration succeeds
    [getMaxGflopsDeviceIdDRV] returns; whenever it returns, the index is in
    [0, device_count) if at least one device is enumerated and is 0 if none
    is; the comparison of scores being strict, every eligible device of a
    lower index has a strictly lower score than the returned one; so, when
    some eligible device has a positive score, the returned index is the
    lowest among the eligible devices of maximal score.  When no eligible
    device has a positive score, index 0 is returned, eligible or not. *)
Theorem getMaxGflopsDeviceIdDRV_index_in_range (E : env) (s : state) :
  let count := snd (cuDeviceGetCount E) in
  let best := best_SM_arch E in
  (enumeration_ok E = true ->
   exists d,
     Drv.getMaxGflopsDeviceIdDRV E s = (Ret d, emits s [Native "cuInit" [0]]))
  /\
  (forall d s',
     Drv.getMaxGflopsDeviceIdDRV E s = (Ret d, s') ->
     (1 <= count -> 0 <= d < count) /\
     (count <= 0 -> d = 0) /\
     (forall i, 0 <= i < d -> eligible E best i = true ->
                Drv.compute_perf E i < Drv.compute_perf E d) /\
     ((exists i, 0 <= i < count /\ eligible E best i = true /\
                 0 < Drv.compute_perf E i) ->
      eligible E best d = true /\
      forall i, 0 <= i < count -> eligible E best i = true ->
                Drv.compute_perf E i <= Drv.compute_perf E d) /\
     ((forall i, 0 <= i < count -> eligible E best i = true ->
                 Drv.compute_perf E i <= 0) ->
      d = 0)).
Proof.
  intros count best. split.
  - intros Hok. eexists. by apply getMaxGflopsDeviceIdDRV_ok.
  - intros d s' Hret.
    destruct (getMaxGflopsDeviceIdDRV_cases E s)
      as [Hrun | (line & err & _ & Hrun)];
      rewrite Hrun in Hret; [| discriminate Hret].
    injection Hret as <- _.
    destruct (max_perf_device_spec E) as (H1 & H2 & H3 & H4 & H5).
    split; [exact H1 |]. split; [exact H2 |]. split; [exact H3 |].
    split; [| exact H5].
    intros Hex. destruct (H4 Hex) as (_ & Hel & _ & Hmax). by split.
Qed.

(** C1 (as amended). On a machine whose enumeration succeeds
    [getMaxGflopsDeviceIdDRV] scores every enumerated device by
    [multiProcessorCount * sm_per_multiproc * clockRate] and returns: the
    eligible device of maximal score, the lowest-indexed such, when some
    eligible device has a positive score; device 0 when none has.  The
    eligible devices are all enumerated devices while the best major
    version (the largest major version in (0, 9999) among the devices, 0 if
    there is none) is at most 2, and the devices of the best major version
    otherwise. *)
Theorem getMaxGflopsDeviceIdDRV_selects (E : env) (s : state) :
  enumeration_ok E = true ->
  let count := snd (cuDeviceGetCount E) in
  let best := best_SM_arch E in
  exists d,
    Drv.getMaxGflopsDeviceIdDRV E s = (Ret d, emits s [Native "cuInit" [0]]) /\
    (forall i, 0 <= i < count -> qualifies (Drv.major_of E i) = true ->
               Drv.major_of E i <= best) /\
    (best = 0 \/
     exists i, 0 <= i < count /\ qualifies (Drv.major_of E i) = true /\
               Drv.major_of E i = best) /\
    ((exists i, 0 <= i < count /\ eligible E best i = true /\
                0 < Drv.compute_perf E i) ->
     0 <= d < count /\ eligible E best d = true /\
     0 < Drv.compute_perf E d /\
     (forall i, 0 <= i < count -> eligible E best i = true ->
                Drv.compute_perf E i <= Drv.compute_perf E d) /\
     (forall i, 0 <= i < d -> eligible E best i = true ->
                Drv.compute_perf E i < Drv.compute_perf E d)) /\
    ((forall i, 0 <= i < count -> eligible E best i = true ->
                Drv.compute_perf E i <= 0) ->
     d = 0).
Proof.
  intros Hok count best. exists (max_perf_device E).
  split; [by apply getMaxGflopsDeviceIdDRV_ok |].
  destruct (best_SM_arch_spec E) as (Hb1 & Hb2).
  destruct (max_perf_device_spec E) as (_ & _ & Hlow & Hsome & Hnone).
  split; [exact Hb1 |]. split; [exact Hb2 |]. split; [| exact Hnone].
  intros Hex. destruct (Hsome Hex) as (Hr & He & Hp & Hmax).
  split; [exact Hr |]. split; [exact He |]. split; [exact Hp |].
  split; [exact Hmax | exact Hlow].
Qed.

(** ** The find helpers, path by path *)

Lemma poke_stored p d s :
  (if negb (p =? 0) then poke p d else ret tt) s = (Ret tt, stored p d s).
Proof. unfold stored. destruct (p =? 0); reflexivity. Qed.

(** With the flag [device]: the outcome of [gpuDeviceInitDRV] decides. *)
Lemma findCudaDeviceDRV_flag E argc argv p s :
  checkCmdLineFlag E argc argv "device" = true ->
  Drv.findCudaDeviceDRV E argc argv p s =
    match Drv.gpuDeviceInitDRV E argc argv s with
    | (Exit code, s1) => (Exit code, s1)
    | (Ret devID, s1) =>
        if devID <? 0 then
          (Exit 0, emits s1 [Print stdout Drv.exiting_fmt []])
        else (Ret (snd (cuDeviceGet E devID)), stored p devID s1)
    end.
Proof.
  intros Hflag. unfold Drv.findCudaDeviceDRV. rewrite Hflag.
  unfold bind at 1. unfold bind at 1.
  destruct (Drv.gpuDeviceInitDRV E argc argv s) as [[devID|code] s1];
    [| reflexivity].
  destruct (devID <? 0).
  - reflexivity.
  - cbn [ret]. unfold bind. rewrite poke_stored. reflexivity.
Qed.

(** Without it: the outcome of [getMaxGflopsDeviceIdDRV], then the checked
    [cuDeviceGet] of line 149. *)
Lemma findCudaDeviceDRV_noflag E argc argv p s :
  checkCmdLineFlag E argc argv "device" = false ->
  Drv.findCudaDeviceDRV E argc argv p s =
    match Drv.getMaxGflopsDeviceIdDRV E s with
    | (Exit code, s1) => (Exit code, s1)
    | (Ret devID, s1) =>
        if negb (fst (cuDeviceGet E devID) =? CUDA_SUCCESS) then
          (Exit (-1),
           emits s1 [drv_error_line E 149 (fst (cuDeviceGet E devID))])
        else
          (Ret (snd (cuDeviceGet E devID)),
           stored p devID (emits s1 [find_using_line E devID]))
    end.
Proof.
  intros Hflag. unfold Drv.findCudaDeviceDRV. rewrite Hflag.
  unfold bind at 1. unfold bind at 1.
  destruct (Drv.getMaxGflopsDeviceIdDRV E s) as [[devID|code] s1];
    [| reflexivity].
  destruct (fst (cuDeviceGet E devID) =? CUDA_SUCCESS) eqn:Hget.
  - apply Z.eqb_eq in Hget.
    rewrite (bind_Ret _ _ _ _ _ (drv_check_ok E 149 _ s1 Hget)).
    cbn [negb]. unfold printf, fprintf, emit, bind, ret.
    rewrite poke_stored. reflexivity.
  - apply Z.eqb_neq in Hget.
    rewrite (bind_Exit _ _ _ _ _ (drv_check_fail E 149 _ s1 Hget)).
    reflexivity.
Qed.

Lemma findCudaGLDevice_flag E argc argv s :
  checkCmdLineFlag E argc argv "device" = true ->
  GL.findCudaGLDevice E argc argv s =
    match GL.gpuGLDeviceInit E argc argv s with
    | (Exit code, s1) => (Exit code, s1)
    | (Ret devID, s1) =>
        if devID <? 0 then
          (Exit 0,
           emits s1 [Print stdout GL.exiting_fmt [];
                     Native "cudaDeviceReset" []])
        else (Ret devID, s1)
    end.
Proof.
  intros Hflag. unfold GL.findCudaGLDevice. rewrite Hflag.
  unfold bind at 1.
  destruct (GL.gpuGLDeviceInit E argc argv s) as [[devID|code] s1];
    [| reflexivity].
  destruct (devID <? 0); [| reflexivity].
  unfold_ops. norm_log. reflexivity.
Qed.

(** Every exit of [gpuDeviceInitDRV] has code -1 and comes right after a
    line on [stderr]; every return is the requested index, valid, or its
    negation after the four lines that reject it. *)
Lemma gpuDeviceInitDRV_outcomes E argc argv s :
  let dev := requested E argc argv in
  let count := snd (cuDeviceGetCount E) in
  (forall code s',
     Drv.gpuDeviceInitDRV E argc argv s = (Exit code, s') ->
     code = -1 /\
     exists l fmt a, s' = emits s (l ++ [Print stderr fmt a])) /\
  (forall d s',
     Drv.gpuDeviceInitDRV E argc argv s = (Ret d, s') ->
     (d = dev /\ 0 <= d <= count - 1) \/
     (d = - dev /\ dev > count - 1 /\
      s' = emits s (Native "cuInit" [0] ::
                    invalid_lines Drv.detected_fmt Drv.invalid_fmt count dev))).
Proof.
  intros dev count.
  pose proof (requested_nonneg E argc argv) as Hnn. fold dev in Hnn.
  assert (Hrun := gpuDeviceInitDRV_run E argc argv s).
  cbv zeta in Hrun. fold dev count in Hrun.
  split.
  - intros code s' Hexit. rewrite Hrun in Hexit.
    split_paths Hexit; inversion Hexit; subst; (split; [reflexivity |]);
      by (exists [Native "cuInit" [0]]; eexists _, _).
  - intros d s' Hret. rewrite Hrun in Hret.
    split_paths Hret; inversion Hret; subst;
      first [ left; split; [reflexivity | lia]
            | right; split; [reflexivity |]; split; [lia | reflexivity] ].
Qed.

Lemma gpuGLDeviceInit_outcomes E argc argv s :
  let dev := requested E argc argv in
  let count := snd (cudaGetDeviceCount E) in
  (forall code s',
     GL.gpuGLDeviceInit E argc argv s = (Exit code, s') ->
     (code = -1 \/ code = cudaCheckExitCode E) /\
     exists l fmt a, s' = emits s (l ++ [Print stderr fmt a])) /\
  (forall d s',
     GL.gpuGLDeviceInit E argc argv s = (Ret d, s') ->
     (d = dev /\ 0 <= d <= count - 1) \/
     (d = - dev /\ dev > count - 1 /\
      s' = emits s (invalid_lines GL.detected_fmt GL.invalid_fmt count dev))).
Proof.
  intros dev count.
  pose proof (requested_nonneg E argc argv) as Hnn. fold dev in Hnn.
  assert (Hrun := gpuGLDeviceInit_run E argc argv s).
  cbv zeta in Hrun. fold dev count in Hrun.
  split.
  - intros code s' Hexit. rewrite Hrun in Hexit.
    split_paths Hexit; inversion Hexit; subst;
      (split; [by auto |]);
      first [ by (exists []; eexists _, _)
            | by (exists [Native "cudaGLSetGLDevice" [dev]]; eexists _, _)
            | by (exists [gl_using_line E dev;
                          Native "cudaGLSetGLDevice" [dev]]; eexists _, _) ].
  - intros d s' Hret. rewrite Hrun in Hret.
    split_paths Hret; inversion Hret; subst;
      first [ left; split; [reflexivity | lia]
            | right; split; [reflexivity |]; split; [lia | reflexivity] ].
Qed.

(** ** Explicit indices out of range *)

(** C3 (as stated) fails: on a machine with one device, [-device=5] makes
    both find helpers leave with exit code 0. *)
Lemma device_5_of_1_exits_with_0 :
  ~ drv_rejects_with_nonzero_exit one_gpu_device_5 2 (argv_device "5") /\
  ~ gl_rejects_with_nonzero_exit one_gpu_device_5 2 (argv_device "5").
Proof.
  split; intros H.
  - destruct (H eq_refl ltac:(vm_compute; reflexivity) 0 empty_state)
      as (code & s' & Hrun & Hcode).
    vm_compute in Hrun. inversion Hrun. congruence.
  - destruct (H eq_refl ltac:(vm_compute; reflexivity) empty_state)
      as (code & s' & Hrun & Hcode).
    vm_compute in Hrun. inversion Hrun. congruence.
Qed.

(** C3 (as amended). For an explicit index greater than the device count
    minus one: when at least one device is enumerated the init helper
    prints the four lines that reject the index and returns its negation,
    and the find helper then prints its "exiting" line and leaves with exit
    code 0; when no device is enumerated the process leaves with exit code
    -1 from the init helper. *)
Theorem out_of_range_index_exits_0 (E : env) (argc : Z) (argv : list string)
    (p_devID : Z) (s : state) :
  checkCmdLineFlag E argc argv "device" = true ->
  let n := getCmdLineArgumentInt E argc argv "device=" in
  (cuInit E 0 = CUDA_SUCCESS ->
   fst (cuDeviceGetCount E) = CUDA_SUCCESS ->
   n > snd (cuDeviceGetCount E) - 1 ->
   let count := snd (cuDeviceGetCount E) in
   let rejected :=
     Native "cuInit" [0] ::
     invalid_lines Drv.detected_fmt Drv.invalid_fmt count n in
   (1 <= count ->
    Drv.gpuDeviceInitDRV E argc argv s = (Ret (- n), emits s rejected) /\
    Drv.findCudaDeviceDRV E argc argv p_devID s =
      (Exit 0, emits s (rejected ++ [Print stdout Drv.exiting_fmt []]))) /\
   (count = 0 ->
    Drv.findCudaDeviceDRV E argc argv p_devID s =
      (Exit (-1),
       emits s [Native "cuInit" [0]; Print stderr Drv.no_devices_fmt []]))) /\
  (fst (cudaGetDeviceCount E) = cudaSuccess ->
   n > snd (cudaGetDeviceCount E) - 1 ->
   let count := snd (cudaGetDeviceCount E) in
   let rejected := invalid_lines GL.detected_fmt GL.invalid_fmt count n in
   (1 <= count ->
    GL.gpuGLDeviceInit E argc argv s = (Ret (- n), emits s rejected) /\
    GL.findCudaGLDevice E argc argv s =
      (Exit 0,
       emits s (rejected ++ [Print stdout GL.exiting_fmt [];
                             Native "cudaDeviceReset" []]))) /\
   (count = 0 ->
    GL.findCudaGLDevice E argc argv s =
      (Exit (-1), emits s [Print stderr GL.no_devices_fmt []]))).
Proof.
  intros Hflag n. split.
  - intros Hinit Hst Hn count rejected.
    assert (Hrun := gpuDeviceInitDRV_run E argc argv s).
    cbv zeta in Hrun. rewrite Hinit, Hst in Hrun.
    unfold CUDA_SUCCESS in Hrun. cbn [negb Z.eqb] in Hrun. fold count in Hrun.
    split.
    + intros Hcount.
      assert (Hreq : requested E argc argv = n).
      { unfold requested, clamp. fold n.
        destruct (n <? 0) eqn:Hlt; [lia | reflexivity]. }
      rewrite Hreq in Hrun.
      destruct (count =? 0) eqn:H0; [lia |].
      destruct (n >? count - 1) eqn:H1; [| lia].
      split; [exact Hrun |].
      rewrite (findCudaDeviceDRV_flag _ _ _ _ _ Hflag), Hrun.
      destruct (- n <? 0) eqn:H2; [| lia].
      rewrite emits_emits. reflexivity.
    + intros Hcount. rewrite Hcount in Hrun. cbn [Z.eqb] in Hrun.
      rewrite (findCudaDeviceDRV_flag _ _ _ _ _ Hflag), Hrun. reflexivity.
  - intros Hst Hn count rejected.
    assert (Hrun := gpuGLDeviceInit_run E argc argv s).
    cbv zeta in Hrun. rewrite Hst in Hrun.
    unfold cudaSuccess in Hrun. cbn [negb Z.eqb] in Hrun. fold count in Hrun.
    split.
    + intros Hcount.
      assert (Hreq : requested E argc argv = n).
      { unfold requested, clamp. fold n.
        destruct (n <? 0) eqn:Hlt; [lia | reflexivity]. }
      rewrite Hreq in Hrun.
      destruct (count =? 0) eqn:H0; [lia |].
      destruct (n >? count - 1) eqn:H1; [| lia].
      split; [exact Hrun |].
      rewrite (findCudaGLDevice_flag _ _ _ _ Hflag), Hrun.
      destruct (- n <? 0) eqn:H2; [| lia].
      rewrite emits_emits. reflexivity.
    + intros Hcount. rewrite Hcount in Hrun. cbn [Z.eqb] in Hrun.
      rewrite (findCudaGLDevice_flag _ _ _ _ Hflag), Hrun. reflexivity.
Qed.

Lemma out_of_range_index_exits_0_witness :
  checkCmdLineFlag one_gpu_device_5 2 (argv_device "5") "device" = true /\
  fst (Drv.findCudaDeviceDRV one_gpu_device_5 2 (argv_device "5") 0
         empty_state) = Exit 0 /\
  fst (GL.findCudaGLDevice one_gpu_device_5 2 (argv_device "5") empty_state)
    = Exit 0.
Proof.
  pose proof (out_of_range_index_exits_0 one_gpu_device_5 2 (argv_device "5")
                0 empty_state eq_refl) as [Hdrv Hgl].
  split; [reflexivity |]. split.
  - destruct (Hdrv eq_refl eq_refl ltac:(vm_compute; reflexivity))
      as [H1 _].
    destruct (H1 ltac:(vm_compute; discriminate)) as [_ Hfind].
    rewrite Hfind. reflexivity.
  - destruct (Hgl eq_refl ltac:(vm_compute; reflexivity)) as [H1 _].
    destruct (H1 ltac:(vm_compute; discriminate)) as [_ Hfind].
    rewrite Hfind. reflexivity.
Defined.

(** ** Exit codes *)

(** C4 (as stated) fails: with no device enumerated both init helpers
    leave with exit code -1, not 0. *)
Lemma zero_devices_exit_with_minus_1 :
  ~ drv_zero_devices_exit_0 no_gpu_device_0 2 (argv_device "0") /\
  ~ gl_zero_devices_exit_0 no_gpu_device_0 2 (argv_device "0").
Proof.
  split; intros H.
  - destruct (H eq_refl eq_refl empty_state) as (s' & Hrun).
    vm_compute in Hrun. discriminate Hrun.
  - destruct (H eq_refl empty_state) as (s' & Hrun).
    vm_compute in Hrun. discriminate Hrun.
Qed.

(** C4 (as amended). When device enumeration reports zero devices the init
    helpers leave with exit code -1.  [findCudaDeviceDRV] leaves with exit
    code 0 or -1 only, and with 0 exactly on its "exiting..." path, taken
    when the flag [device] is present and [gpuDeviceInitDRV] returned a
    negative value; a negative index is that return value and never an
    exit code.  With the flag present [findCudaGLDevice] leaves with 0 on
    the same path, and otherwise with -1 or the exit code of the runtime
    error check (so with 0 on that path only, if that code is not 0). *)
Theorem exit_codes_of_the_helpers (E : env) (argc : Z) (argv : list string)
    (p_devID : Z) (s : state) :
  (cuInit E 0 = CUDA_SUCCESS ->
   cuDeviceGetCount E = (CUDA_SUCCESS, 0) ->
   Drv.gpuDeviceInitDRV E argc argv s =
     (Exit (-1),
      emits s [Native "cuInit" [0]; Print stderr Drv.no_devices_fmt []])) /\
  (cudaGetDeviceCount E = (cudaSuccess, 0) ->
   GL.gpuGLDeviceInit E argc argv s =
     (Exit (-1), emits s [Print stderr GL.no_devices_fmt []])) /\
  (forall code s',
     Drv.findCudaDeviceDRV E argc argv p_devID s = (Exit code, s') ->
     code = 0 \/ code = -1) /\
  (forall s',
     Drv.findCudaDeviceDRV E argc argv p_devID s = (Exit 0, s') <->
     checkCmdLineFlag E argc argv "device" = true /\
     exists d s1,
       Drv.gpuDeviceInitDRV E argc argv s = (Ret d, s1) /\ d < 0 /\
       s' = emits s1 [Print stdout Drv.exiting_fmt []]) /\
  (checkCmdLineFlag E argc argv "device" = true ->
   (forall code s',
      GL.findCudaGLDevice E argc argv s = (Exit code, s') ->
      code = 0 \/ code = -1 \/ code = cudaCheckExitCode E) /\
   (forall d s1,
      GL.gpuGLDeviceInit E argc argv s = (Ret d, s1) -> d < 0 ->
      GL.findCudaGLDevice E argc argv s =
        (Exit 0,
         emits s1 [Print stdout GL.exiting_fmt [];
                   Native "cudaDeviceReset" []])) /\
   (cudaCheckExitCode E <> 0 ->
    forall s',
      GL.findCudaGLDevice E argc argv s = (Exit 0, s') <->
      exists d s1,
        GL.gpuGLDeviceInit E argc argv s = (Ret d, s1) /\ d < 0 /\
        s' = emits s1 [Print stdout GL.exiting_fmt [];
                       Native "cudaDeviceReset" []])).
Proof.
  split; [| split; [| split; [| split]]].
  - intros Hinit Hcount. rewrite gpuDeviceInitDRV_run. cbv zeta.
    rewrite Hinit, Hcount. reflexivity.
  - intros Hcount. rewrite gpuGLDeviceInit_run. cbv zeta.
    rewrite Hcount. reflexivity.
  - intros code s' Hexit.
    destruct (checkCmdLineFlag E argc argv "device") eqn:Hflag.
    + rewrite (findCudaDeviceDRV_flag _ _ _ _ _ Hflag) in Hexit.
      destruct (Drv.gpuDeviceInitDRV E argc argv s) as [[d|c] s1] eqn:Hinit.
      * destruct (d <? 0); inversion Hexit. by left.
      * inversion Hexit; subst.
        destruct (gpuDeviceInitDRV_outcomes E argc argv s) as [Hout _].
        destruct (Hout _ _ Hinit) as [-> _]. by right.
    + rewrite (findCudaDeviceDRV_noflag _ _ _ _ _ Hflag) in Hexit.
      destruct (getMaxGflopsDeviceIdDRV_cases E s)
        as [Hrun | (line & err & _ & Hrun)]; rewrite Hrun in Hexit.
      * destruct (negb _); inversion Hexit. by right.
      * inversion Hexit. by right.
  - intros s'. split.
    + intros Hexit.
      destruct (checkCmdLineFlag E argc argv "device") eqn:Hflag.
      * split; [reflexivity |].
        rewrite (findCudaDeviceDRV_flag _ _ _ _ _ Hflag) in Hexit.
        destruct (Drv.gpuDeviceInitDRV E argc argv s) as [[d|c] s1] eqn:Hinit.
        -- destruct (d <? 0) eqn:Hd; inversion Hexit.
           exists d, s1. split; [reflexivity |]. split; [lia | reflexivity].
        -- inversion Hexit; subst.
           destruct (gpuDeviceInitDRV_outcomes E argc argv s) as [Hout _].
           destruct (Hout _ _ Hinit) as [Hc _]. discriminate Hc.
      * exfalso.
        rewrite (findCudaDeviceDRV_noflag _ _ _ _ _ Hflag) in Hexit.
        destruct (getMaxGflopsDeviceIdDRV_cases E s)
          as [Hrun | (line & err & _ & Hrun)]; rewrite Hrun in Hexit.
        -- destruct (negb _); inversion Hexit.
        -- inversion Hexit.
    + intros (Hflag & d & s1 & Hinit & Hd & ->).
      rewrite (findCudaDeviceDRV_flag _ _ _ _ _ Hflag), Hinit.
      destruct (d <? 0) eqn:Hlt; [reflexivity | lia].
  - intros Hflag. split; [| split].
    + intros code s' Hexit.
      rewrite (findCudaGLDevice_flag _ _ _ _ Hflag) in Hexit.
      destruct (GL.gpuGLDeviceInit E argc argv s) as [[d|c] s1] eqn:Hinit.
      * destruct (d <? 0); inversion Hexit. by left.
      * inversion Hexit; subst. right.
        destruct (gpuGLDeviceInit_outcomes E argc argv s) as [Hout _].
        by destruct (Hout _ _ Hinit) as [Hc _].
    + intros d s1 Hinit Hd.
      rewrite (findCudaGLDevice_flag _ _ _ _ Hflag), Hinit.
      destruct (d <? 0) eqn:Hlt; [reflexivity | lia].
    + intros Hcode s'. rewrite (findCudaGLDevice_flag _ _ _ _ Hflag).
      destruct (GL.gpuGLDeviceInit E argc argv s) as [[d|c] s1] eqn:Hinit.
      * destruct (d <? 0) eqn:Hlt; split.
        -- intros Hexit. inversion Hexit. exists d, s1.
           split; [reflexivity |]. split; [lia | reflexivity].
        -- intros (d' & s2 & Heq & _ & ->). by inversion Heq.
        -- intros Hexit. discriminate Hexit.
        -- intros (d' & s2 & Heq & Hd & _). inversion Heq; subst. lia.
      * split.
        -- intros Hexit. inversion Hexit; subst.
           destruct (gpuGLDeviceInit_outcomes E argc argv s) as [Hout _].
           destruct (Hout _ _ Hinit) as [[Hc | Hc] _];
             [discriminate Hc | congruence].
        -- intros (d' & s2 & Heq & _). discriminate Heq.
Qed.

Lemma exit_codes_of_the_helpers_witness :
  Drv.gpuDeviceInitDRV no_gpu_device_0 2 (argv_device "0") empty_state =
    (Exit (-1),
     emits empty_state
       [Native "cuInit" [0]; Print stderr Drv.no_devices_fmt []]) /\
  GL.gpuGLDeviceInit no_gpu_device_0 2 (argv_device "0") empty_state =
    (Exit (-1), emits empty_state [Print stderr GL.no_devices_fmt []]) /\
  fst (GL.findCudaGLDevice one_gpu_device_5 2 (argv_device "5") empty_state)
    = Exit 0.
Proof.
  destruct (exit_codes_of_the_helpers no_gpu_device_0 2 (argv_device "0") 0
              empty_state) as (Hdrv & Hgl & _).
  destruct (exit_codes_of_the_helpers one_gpu_device_5 2 (argv_device "5") 0
              empty_state) as (_ & _ & _ & _ & Hfind).
  split; [exact (Hdrv eq_refl eq_refl) |].
  split; [exact (Hgl eq_refl) |].
  destruct (Hfind eq_refl) as (_ & Hzero & _).
  rewrite (Hzero (-5) _ ltac:(vm_compute; reflexivity)
             ltac:(vm_compute; reflexivity)).
  reflexivity.
Defined.

(** ** Failure modes of the init helpers *)

(** C5 (as stated) fails: on a machine with one device, [-device=5] makes
    both init helpers return -5 to their caller instead of terminating. *)
Lemma device_5_of_1_returns_minus_5 :
  ~ returns_only_valid_indices
      (Drv.gpuDeviceInitDRV one_gpu_device_5 2 (argv_device "5")) 1 /\
  ~ returns_only_valid_indices
      (GL.gpuGLDeviceInit one_gpu_device_5 2 (argv_device "5")) 1.
Proof.
  split; intros H.
  - specialize (H empty_state (-5) _ ltac:(vm_compute; reflexivity)). lia.
  - specialize (H empty_state (-5) _ ltac:(vm_compute; reflexivity)). lia.
Qed.

(** C5 (as amended). In the init helpers "no devices found" and a failing
    native call are handled by printing a line on [stderr] and terminating
    the process (with code -1; with the code of the runtime error check
    for a failing runtime call), and every termination comes right after
    such a line.  An invalid device index is not: the helper prints the
    four lines that reject it and returns the negated index to its caller.
    Every value returned is the requested index, valid, or that negated
    index. *)
Theorem init_helpers_failure_modes (E : env) (argc : Z) (argv : list string)
    (s : state) :
  let dev := requested E argc argv in
  ((forall code s',
      Drv.gpuDeviceInitDRV E argc argv s = (Exit code, s') ->
      code = -1 /\
      exists l fmt a, s' = emits s (l ++ [Print stderr fmt a])) /\
   (forall d s',
      Drv.gpuDeviceInitDRV E argc argv s = (Ret d, s') ->
      (d = dev /\ 0 <= d <= snd (cuDeviceGetCount E) - 1) \/
      (d = - dev /\ dev > snd (cuDeviceGetCount E) - 1 /\
       s' = emits s (Native "cuInit" [0] ::
                     invalid_lines Drv.detected_fmt Drv.invalid_fmt
                       (snd (cuDeviceGetCount E)) dev))) /\
   (drv_init_fails E argc argv = true ->
    exists s', Drv.gpuDeviceInitDRV E argc argv s = (Exit (-1), s')) /\
   (cuInit E 0 = CUDA_SUCCESS ->
    fst (cuDeviceGetCount E) = CUDA_SUCCESS ->
    snd (cuDeviceGetCount E) <> 0 ->
    dev > snd (cuDeviceGetCount E) - 1 ->
    Drv.gpuDeviceInitDRV E argc argv s =
      (Ret (- dev),
       emits s (Native "cuInit" [0] ::
                invalid_lines Drv.detected_fmt Drv.invalid_fmt
                  (snd (cuDeviceGetCount E)) dev)))) /\
  ((forall code s',
      GL.gpuGLDeviceInit E argc argv s = (Exit code, s') ->
      (code = -1 \/ code = cudaCheckExitCode E) /\
      exists l fmt a, s' = emits s (l ++ [Print stderr fmt a])) /\
   (forall d s',
      GL.gpuGLDeviceInit E argc argv s = (Ret d, s') ->
      (d = dev /\ 0 <= d <= snd (cudaGetDeviceCount E) - 1) \/
      (d = - dev /\ dev > snd (cudaGetDeviceCount E) - 1 /\
       s' = emits s (invalid_lines GL.detected_fmt GL.invalid_fmt
                       (snd (cudaGetDeviceCount E)) dev))) /\
   (gl_init_fails E argc argv = true ->
    exists code s', GL.gpuGLDeviceInit E argc argv s = (Exit code, s')) /\
   (fst (cudaGetDeviceCount E) = cudaSuccess ->
    snd (cudaGetDeviceCount E) <> 0 ->
    dev > snd (cudaGetDeviceCount E) - 1 ->
    GL.gpuGLDeviceInit E argc argv s =
      (Ret (- dev),
       emits s (invalid_lines GL.detected_fmt GL.invalid_fmt
                  (snd (cudaGetDeviceCount E)) dev)))).
Proof.
  intros dev. split.
  - destruct (gpuDeviceInitDRV_outcomes E argc argv s) as [Hexit Hret].
    split; [exact Hexit |]. split; [exact Hret |]. split.
    { unfold drv_init_fails. rewrite gpuDeviceInitDRV_run. cbv zeta.
      repeat match goal with
             | |- context [if ?b then _ else _] => destruct b
             end;
        cbn [negb orb andb]; intros Hfail; try discriminate Hfail; eauto. }
    intros Hinit Hst Hcount Hdev.
    rewrite gpuDeviceInitDRV_run. cbv zeta. fold dev.
    rewrite Hinit, Hst. unfold CUDA_SUCCESS. cbn [negb Z.eqb].
    destruct (_ =? 0) eqn:H0; [lia |].
    destruct (dev >? _) eqn:H1; [reflexivity | lia].
  - destruct (gpuGLDeviceInit_outcomes E argc argv s) as [Hexit Hret].
    split; [exact Hexit |]. split; [exact Hret |]. split.
    { unfold gl_init_fails. rewrite gpuGLDeviceInit_run. cbv zeta.
      repeat match goal with
             | |- context [if ?b then _ else _] => destruct b
             end;
        cbn [negb orb andb]; intros Hfail; try discriminate Hfail; eauto. }
    intros Hst Hcount Hdev.
    rewrite gpuGLDeviceInit_run. cbv zeta. fold dev.
    rewrite Hst. unfold cudaSuccess. cbn [negb Z.eqb].
    destruct (_ =? 0) eqn:H0; [lia |].
    destruct (dev >? _) eqn:H1; [reflexivity | lia].
Qed.

Lemma init_helpers_failure_modes_witness :
  fst (Drv.gpuDeviceInitDRV one_gpu_device_5 2 (argv_device "5") empty_state)
    = Ret (-5) /\
  fst (GL.gpuGLDeviceInit one_gpu_device_5 2 (argv_device "5") empty_state)
    = Ret (-5).
Proof.
  destruct (init_helpers_failure_modes one_gpu_device_5 2 (argv_device "5")
              empty_state) as [(_ & _ & _ & Hdrv) (_ & _ & _ & Hgl)].
  split.
  - rewrite (Hdrv eq_refl eq_refl ltac:(vm_compute; discriminate)
               ltac:(vm_compute; reflexivity)).
    reflexivity.
  - rewrite (Hgl eq_refl ltac:(vm_compute; discriminate)
               ltac:(vm_compute; reflexivity)).
    reflexivity.
Defined.

(** ** [findCudaDeviceDRV] *)

Lemma stored_lookup p d s : p <> 0 -> heap (stored p d s) !! p = Some d.
Proof.
  intros Hp. unfold stored. destruct (p =? 0) eqn:H0; [lia |].
  cbn [store heap]. apply lookup_insert_eq.
Qed.

Lemma stored_null d s : stored 0 d s = s.
Proof. reflexivity. Qed.

Lemma stored_log p d s : log (stored p d s) = log s.
Proof. unfold stored. destruct (p =? 0); reflexivity. Qed.

Lemma stored_other p q d s : q <> p -> heap (stored p d s) !! q = heap s !! q.
Proof.
  intros Hq. unfold stored. destruct (p =? 0); [reflexivity |].
  cbn [store heap]. by apply lookup_insert_ne.
Qed.

(** C6. With the flag [device] present [findCudaDeviceDRV] delegates to
    [gpuDeviceInitDRV] and goes on with the index it returns (when that is
    not negative); otherwise it goes on with the index
    [getMaxGflopsDeviceIdDRV] returns (printing it and the device's name
    once [cuDeviceGet] has succeeded for it).  In both cases it returns the
    handle [cuDeviceGet] gives for the chosen index, and the final state is
    the one reached so far with the chosen index stored at [p_devID] when
    that pointer is not null, and unchanged when it is null. *)
Theorem findCudaDeviceDRV_returns_chosen_device (E : env) (argc : Z)
    (argv : list string) (p_devID : Z) (s : state) :
  (checkCmdLineFlag E argc argv "device" = true ->
   forall devID s1,
     Drv.gpuDeviceInitDRV E argc argv s = (Ret devID, s1) ->
     0 <= devID ->
     Drv.findCudaDeviceDRV E argc argv p_devID s =
       (Ret (snd (cuDeviceGet E devID)), stored p_devID devID s1)) /\
  (checkCmdLineFlag E argc argv "device" = false ->
   forall devID s1,
     Drv.getMaxGflopsDeviceIdDRV E s = (Ret devID, s1) ->
     fst (cuDeviceGet E devID) = CUDA_SUCCESS ->
     Drv.findCudaDeviceDRV E argc argv p_devID s =
       (Ret (snd (cuDeviceGet E devID)),
        stored p_devID devID (emits s1 [find_using_line E devID]))) /\
  (forall devID s1,
     (p_devID <> 0 -> heap (stored p_devID devID s1) !! p_devID = Some devID) /\
     (p_devID = 0 -> stored p_devID devID s1 = s1) /\
     log (stored p_devID devID s1) = log s1 /\
     (forall q, q <> p_devID ->
                heap (stored p_devID devID s1) !! q = heap s1 !! q)).
Proof.
  split; [| split].
  - intros Hflag devID s1 Hinit Hpos.
    rewrite (findCudaDeviceDRV_flag _ _ _ _ _ Hflag), Hinit.
    destruct (devID <? 0) eqn:Hlt; [lia | reflexivity].
  - intros Hflag devID s1 Hmax Hget.
    rewrite (findCudaDeviceDRV_noflag _ _ _ _ _ Hflag), Hmax, Hget.
    reflexivity.
  - intros devID s1. split; [apply stored_lookup |].
    split; [intros ->; apply stored_null |].
    split; [apply stored_log | intros q; apply stored_other].
Qed.

Lemma findCudaDeviceDRV_returns_chosen_device_witness :
  (exists s',
     Drv.findCudaDeviceDRV two_gpus_device_1 2 (argv_device "1") 7
       empty_state = (Ret 1, s') /\ heap s' !! 7 = Some 1) /\
  (exists s',
     Drv.findCudaDeviceDRV two_gpus 1 argv_plain 7 empty_state = (Ret 1, s') /\
     heap s' !! 7 = Some 1).
Proof.
  destruct (findCudaDeviceDRV_returns_chosen_device two_gpus_device_1 2
              (argv_device "1") 7 empty_state) as (Hflag & _ & Hst).
  destruct (findCudaDeviceDRV_returns_chosen_device two_gpus 1 argv_plain 7
              empty_state) as (_ & Hnoflag & _).
  split.
  - eexists. split.
    + apply (Hflag eq_refl 1 _ ltac:(vm_compute; reflexivity)
               ltac:(vm_compute; discriminate)).
    + apply Hst. discriminate.
  - eexists. split.
    + apply (Hnoflag eq_refl 1 _ ltac:(vm_compute; reflexivity) eq_refl).
    + apply Hst. discriminate.
Defined.

(** ** The selection examples *)

(** C1 (as stated) fails.  Of a Fermi board (16 multiprocessors of 32
    cores at 1544 MHz, score 790528000) at index 0 and a Kepler board (2
    multiprocessors of 192 cores at 900 MHz, score 345600000) at index 1,
    the selection returns index 1, the only board of the best major
    version, although index 0 has the maximum score.  And on the machine
    [mixed_machine] (scores 544320000, 790528000, 0, 0; best major version
    3) it returns index 0, which has neither the maximum score nor the
    best major version: no eligible board has a positive score. *)
Lemma selected_device_is_not_of_max_score :
  (Drv.getMaxGflopsDeviceIdDRV two_gpus empty_state =
     (Ret 1, emits empty_state [Native "cuInit" [0]]) /\
   Drv.compute_perf two_gpus 0 = 790528000 /\
   Drv.compute_perf two_gpus 1 = 345600000 /\
   ~ returns_max_score_device two_gpus) /\
  (Drv.getMaxGflopsDeviceIdDRV mixed_machine empty_state =
     (Ret 0, emits empty_state [Native "cuInit" [0]]) /\
   ~ returns_max_score_device mixed_machine /\
   ~ returns_max_score_eligible_device mixed_machine).
Proof.
  split.
  - split; [vm_compute; reflexivity |].
    split; [vm_compute; reflexivity |].
    split; [vm_compute; reflexivity |].
    intros H. unfold returns_max_score_device in H.
    destruct (H empty_state 1 (emits empty_state [Native "cuInit" [0]])
                ltac:(vm_compute; reflexivity)) as [_ Hmax].
    specialize (Hmax 0 ltac:(cbn; lia)).
    vm_compute in Hmax. apply Hmax. reflexivity.
  - split; [vm_compute; reflexivity |]. split.
    + intros H. unfold returns_max_score_device in H.
      destruct (H empty_state 0 (emits empty_state [Native "cuInit" [0]])
                  ltac:(vm_compute; reflexivity)) as [_ Hmax].
      specialize (Hmax 1 ltac:(cbn; lia)).
      vm_compute in Hmax. apply Hmax. reflexivity.
    + intros H. unfold returns_max_score_eligible_device in H.
      destruct (H empty_state 0 (emits empty_state [Native "cuInit" [0]])
                  ltac:(vm_compute; reflexivity)) as (_ & Hel & _).
      vm_compute in Hel. discriminate Hel.
Qed.

Lemma getMaxGflopsDeviceIdDRV_selects_witness :
  enumeration_ok two_gpus = true /\
  fst (Drv.getMaxGflopsDeviceIdDRV two_gpus empty_state) = Ret 1 /\
  best_SM_arch two_gpus = 3.
Proof.
  split; [reflexivity |].
  destruct (getMaxGflopsDeviceIdDRV_selects two_gpus empty_state eq_refl)
    as (d & Hrun & _ & _ & Hsome & _).
  split; [| reflexivity].
  rewrite Hrun. cbn [fst]. f_equal.
  assert (Hex : exists i, 0 <= i < snd (cuDeviceGetCount two_gpus) /\
                  eligible two_gpus (best_SM_arch two_gpus) i = true /\
                  0 < Drv.compute_perf two_gpus i).
  { exists 1. split; [cbn; lia |]. split; vm_compute; reflexivity. }
  destruct (Hsome Hex) as (Hrange & Hel & _).
  cbn in Hrange.
  assert (Hd : d = 0 \/ d = 1) by lia.
  destruct Hd as [-> | ->]; [vm_compute in Hel; discriminate Hel | reflexivity].
Defined.

Lemma getMaxGflopsDeviceIdDRV_index_in_range_witness :
  exists d,
    Drv.getMaxGflopsDeviceIdDRV two_gpus empty_state =
      (Ret d, emits empty_state [Native "cuInit" [0]]) /\
    0 <= d < 2.
Proof.
  destruct (getMaxGflopsDeviceIdDRV_index_in_range two_gpus empty_state)
    as [Hret Hprops].
  destruct (Hret eq_refl) as [d Hrun].
  exists d. split; [exact Hrun |].
  destruct (Hprops d _ Hrun) as (Hrange & _).
  apply Hrange. vm_compute. discriminate.
Defined.

(** ** The theorems above at sample command lines *)

(** Closed comparisons of integers, by evaluation. *)
Ltac by_compute :=
  vm_compute; intuition (first [reflexivity | discriminate]).

Lemma quiet_flag_controls_using_line_witness :
  quiet one_gpu_quiet 3 argv_quiet = true /\
  (drv_using_line one_gpu_quiet 0
     ∉ emitted (Drv.gpuDeviceInitDRV one_gpu_quiet 3 argv_quiet) empty_state)
  /\
  quiet two_gpus_device_1 2 (argv_device "1") = false /\
  Drv.gpuDeviceInitDRV two_gpus_device_1 2 (argv_device "1") empty_state =
    (Ret 1,
     emits empty_state
       [Native "cuInit" [0]; drv_using_line two_gpus_device_1 1]) /\
  GL.gpuGLDeviceInit two_gpus_device_1 2 (argv_device "1") empty_state =
    (Ret 1,
     emits empty_state
       [gl_using_line two_gpus_device_1 1; Native "cudaGLSetGLDevice" [1]]).
Proof.
  destruct (quiet_flag_controls_using_line one_gpu_quiet 3 argv_quiet
              empty_state) as (_ & Hquiet & _).
  destruct (quiet_flag_controls_using_line two_gpus_device_1 2
              (argv_device "1") empty_state) as (_ & _ & Hloud).
  split; [reflexivity |].
  split; [apply (Hquiet eq_refl) |].
  split; [reflexivity |].
  destruct (Hloud eq_refl) as [Hdrv Hgl].
  split.
  - destruct (Drv.gpuDeviceInitDRV two_gpus_device_1 2 (argv_device "1")
                empty_state) as [o s'] eqn:Hrun.
    assert (Ho : o = Ret 1) by (apply (f_equal fst) in Hrun; exact (eq_sym Hrun)).
    subst o. f_equal. apply (Hdrv 1 s' eq_refl). by_compute.
  - destruct (GL.gpuGLDeviceInit two_gpus_device_1 2 (argv_device "1")
                empty_state) as [o s'] eqn:Hrun.
    assert (Ho : o = Ret 1) by (apply (f_equal fst) in Hrun; exact (eq_sym Hrun)).
    subst o. f_equal. apply (Hgl 1 s' eq_refl). by_compute.
Defined.

Lemma negative_device_is_clamped_to_zero_witness :
  getCmdLineArgumentInt one_gpu_device_neg 2 (argv_device "-3") "device=" < 0
  /\
  Drv.gpuDeviceInitDRV one_gpu_device_neg 2 (argv_device "-3") empty_state =
    (Ret 0,
     emits empty_state
       [Native "cuInit" [0]; drv_using_line one_gpu_device_neg 0]) /\
  GL.gpuGLDeviceInit one_gpu_device_neg 2 (argv_device "-3") empty_state =
    (Ret 0,
     emits empty_state
       [gl_using_line one_gpu_device_neg 0; Native "cudaGLSetGLDevice" [0]]).
Proof.
  assert (Hneg : getCmdLineArgumentInt one_gpu_device_neg 2
                   (argv_device "-3") "device=" < 0) by reflexivity.
  destruct (negative_device_is_clamped_to_zero one_gpu_device_neg 2
              (argv_device "-3") empty_state Hneg)
    as (_ & _ & _ & Hdrv & Hgl).
  split; [exact Hneg |]. split.
  - apply (Hdrv eq_refl eq_refl); [by_compute | reflexivity].
  - apply (Hgl eq_refl); [by_compute | reflexivity | by_compute | reflexivity].
Defined.

Lemma gpuGLDeviceInit_needs_major_1_witness :
  GL.gpuGLDeviceInit old_gpu_device_0 2 (argv_device "0") empty_state =
    (Exit (-1), emits empty_state [Print stderr GL.no_cuda_fmt []]) /\
  Native "cudaGLSetGLDevice" [1]
    ∈ emitted (GL.gpuGLDeviceInit two_gpus_device_1 2 (argv_device "1"))
        empty_state.
Proof.
  destruct (gpuGLDeviceInit_needs_major_1 old_gpu_device_0 2
              (argv_device "0") empty_state) as (Hold & _).
  destruct (gpuGLDeviceInit_needs_major_1 two_gpus_device_1 2
              (argv_device "1") empty_state) as (_ & Hnew & _).
  split.
  - apply Hold; [| by_compute].
    split; [reflexivity |]. split; [by_compute |].
    split; [by_compute | reflexivity].
  - apply Hnew; [| by_compute].
    split; [reflexivity |]. split; [by_compute |].
    split; [by_compute | reflexivity].
Defined.

(** ** Scores that do not fit an [int]

    The product of line 114 is an [int].  For a board of 14
    multiprocessors of 192 cores at 876 MHz the exact product,
    2354688000, exceeds [INT_MAX]; reduced modulo [2^32] it is negative, so
    it never exceeds [max_compute_perf] and the board is not selected by
    its score. *)
Example int_mul_wraps :
  int_mul (int_mul 14 192) 876000 = -1940279296 /\
  14 * 192 * 876000 = 2354688000 /\ INT_MAX = 2147483647.
Proof. repeat split; reflexivity. Qed.

(** Of two such boards the second, faster one is not returned: no score
    is positive and the selection keeps index 0. *)
Example two_large_boards_keep_index_0 :
  let titan := {| gpu_name := "GeForce GTX TITAN"; gpu_major := 3;
                  gpu_minor := 5; gpu_mpc := 14; gpu_clock := 876000 |} in
  let gtx780ti := {| gpu_name := "GeForce GTX 780 Ti"; gpu_major := 3;
                     gpu_minor := 5; gpu_mpc := 15; gpu_clock := 928000 |} in
  let E := sample_env [titan; gtx780ti] None false in
  fst (Drv.getMaxGflopsDeviceIdDRV E empty_state) = Ret 0 /\
  Drv.compute_perf E 0 = -1940279296 /\
  Drv.compute_perf E 1 = -1622327296.
Proof. repeat split; vm_compute; reflexivity. Qed.

(** Behind a Fermi board, two such boards are the eligible ones; index 0,
    the Fermi board, is returned. *)
Example large_boards_behind_fermi_keep_index_0 :
  let titan := {| gpu_name := "GeForce GTX TITAN"; gpu_major := 3;
                  gpu_minor := 5; gpu_mpc := 14; gpu_clock := 876000 |} in
  let E := sample_env [fermi; titan; titan] None false in
  fst (Drv.getMaxGflopsDeviceIdDRV E empty_state) = Ret 0 /\
  best_SM_arch E = 3 /\
  eligible E 3 0 = false /\ eligible E 3 1 = true /\ eligible E 3 2 = true.
Proof. repeat split; vm_compute; reflexivity. Qed.

(** * Further properties of the two headers *)

(** ** The OpenGL error check *)

Lemma sdkCheckErrorGL_run G file line s :
  sdkCheckErrorGL G file line s =
    if glGetError G =? GL_NO_ERROR then
      (Ret true, emits s [Native "glGetError" []])
    else
      (Ret false,
       emits s [Native "glGetError" [];
                Print stderr gl_error_where_fmt [AStr file; AInt line];
                Print stderr gl_error_what_fmt
                  [AStr (gluErrorString G (glGetError G))]]).
Proof.
  unfold sdkCheckErrorGL, native, fprintf, emit, bind, ret. cbv zeta.
  destruct (glGetError G =? GL_NO_ERROR); cbn [negb]; norm_log; reflexivity.
Qed.

(** X1. [sdkCheckErrorGL] never terminates the process: it returns [true],
    printing nothing, when [glGetError] reports [GL_NO_ERROR], and otherwise
    returns [false] after two lines on [stderr] (the place, then the text
    of the error).  The macro [SDK_CHECK_ERROR_GL] terminates the process,
    with [EXIT_FAILURE], exactly when an error is reported, and the two
    lines are then the last thing printed. *)
Theorem SDK_CHECK_ERROR_GL_exits_iff_gl_error (G : gl_env) (file : string)
    (line : Z) (s : state) :
  (exists ok s', sdkCheckErrorGL G file line s = (Ret ok, s') /\
                 (ok = true <-> glGetError G = GL_NO_ERROR) /\
                 (ok = true ->
                  forall st fmt a,
                    Print st fmt a ∉ emitted (sdkCheckErrorGL G file line) s))
  /\
  ((exists code s', SDK_CHECK_ERROR_GL G file line s = (Exit code, s'))
   <-> glGetError G <> GL_NO_ERROR) /\
  (glGetError G = GL_NO_ERROR ->
   SDK_CHECK_ERROR_GL G file line s =
     (Ret tt, emits s [Native "glGetError" []])) /\
  (glGetError G <> GL_NO_ERROR ->
   SDK_CHECK_ERROR_GL G file line s =
     (Exit (EXIT_FAILURE G),
      emits s [Native "glGetError" [];
               Print stderr gl_error_where_fmt [AStr file; AInt line];
               Print stderr gl_error_what_fmt
                 [AStr (gluErrorString G (glGetError G))]])).
Proof.
  assert (Hok : glGetError G = GL_NO_ERROR ->
                SDK_CHECK_ERROR_GL G file line s =
                  (Ret tt, emits s [Native "glGetError" []])).
  { intros Heq. unfold SDK_CHECK_ERROR_GL, bind.
    rewrite sdkCheckErrorGL_run, Heq. reflexivity. }
  assert (Hbad : glGetError G <> GL_NO_ERROR ->
                 SDK_CHECK_ERROR_GL G file line s =
                   (Exit (EXIT_FAILURE G),
                    emits s [Native "glGetError" [];
                             Print stderr gl_error_where_fmt
                               [AStr file; AInt line];
                             Print stderr gl_error_what_fmt
                               [AStr (gluErrorString G (glGetError G))]])).
  { intros Hne. unfold SDK_CHECK_ERROR_GL, bind.
    rewrite sdkCheckErrorGL_run.
    destruct (glGetError G =? GL_NO_ERROR) eqn:Heq; [| reflexivity].
    apply Z.eqb_eq in Heq. contradiction. }
  split; [| split; [| split; [exact Hok | exact Hbad]]].
  - unfold emitted. rewrite sdkCheckErrorGL_run.
    destruct (glGetError G =? GL_NO_ERROR) eqn:Heq.
    + apply Z.eqb_eq in Heq. eexists _, _. split; [reflexivity |].
      split; [done |]. intros _ st fmt a.
      cbn [snd log emits]. rewrite drop_app_length. not_printed.
    + apply Z.eqb_neq in Heq. eexists _, _. split; [reflexivity |].
      split; [split; [discriminate | contradiction] | discriminate].
  - destruct (decide (glGetError G = GL_NO_ERROR)) as [Heq | Hne].
    + rewrite (Hok Heq).
      split; [intros (c & s' & H); discriminate H | contradiction].
    + rewrite (Hbad Hne). split; [done | eauto].
Qed.

Lemma SDK_CHECK_ERROR_GL_exits_iff_gl_error_witness :
  SDK_CHECK_ERROR_GL gl_clean "main.cpp" 42 empty_state =
    (Ret tt, emits empty_state [Native "glGetError" []]) /\
  fst (SDK_CHECK_ERROR_GL gl_invalid_operation "main.cpp" 42 empty_state) =
    Exit 1.
Proof.
  destruct (SDK_CHECK_ERROR_GL_exits_iff_gl_error gl_clean "main.cpp" 42
              empty_state) as (_ & _ & Hok & _).
  destruct (SDK_CHECK_ERROR_GL_exits_iff_gl_error gl_invalid_operation
              "main.cpp" 42 empty_state) as (_ & _ & _ & Hbad).
  split; [exact (Hok eq_refl) |].
  rewrite Hbad; [reflexivity | discriminate].
Defined.

(** ** When the selection returns *)

Lemma best_perf_loop_Ret_inv E best n cur mp md s d s' :
  Drv.best_perf_loop E best n cur mp md s = (Ret d, s') ->
  forall i, cur <= i < cur + Z.of_nat n -> device_queries_ok E i = true.
Proof.
  revert cur mp md. induction n as [|n IH]; intros cur mp md Hret i Hi.
  - lia.
  - destruct (device_queries_ok E cur) eqn:Hok.
    + rewrite (best_perf_loop_step _ _ _ _ _ _ _ Hok) in Hret.
      destruct (decide (i = cur)) as [-> | Hne]; [exact Hok |].
      destruct (_ && _); apply (IH _ _ _ Hret); lia.
    + destruct (best_perf_loop_stop E best n cur mp md s Hok)
        as (line & err & _ & Hstop).
      rewrite Hstop in Hret. discriminate Hret.
Qed.

Lemma getMaxGflopsDeviceIdDRV_Ret_inv E s d s' :
  Drv.getMaxGflopsDeviceIdDRV E s = (Ret d, s') -> enumeration_ok E = true.
Proof.
  rewrite getMaxGflopsDeviceIdDRV_unfold. intros Hret.
  set (s1 := emits s [Native "cuInit" [0]]) in *.
  apply enumeration_ok_spec.
  destruct (drv_check_cases E 86 (fst (cuDeviceGetCount E)) s1)
    as [[Hst Hok] | [Hne _]].
  2: { rewrite (bind_Exit _ _ _ _ _ (drv_check_fail E 86 _ s1 Hne)) in Hret.
       discriminate Hret. }
  split; [exact Hst |].
  rewrite (bind_Ret _ _ _ _ _ Hok) in Hret.
  apply bind_Ret_inv in Hret as (b & s2 & _ & Hperf).
  unfold Drv.best_perf_while in Hperf. rewrite Z.sub_0_r in Hperf.
  intros i Hi. apply (best_perf_loop_Ret_inv _ _ _ _ _ _ _ _ _ Hperf). lia.
Qed.

(** X2. [getMaxGflopsDeviceIdDRV] returns exactly when the device count and
    every query about an enumerated device succeed, and then prints
    nothing; in every other case the process ends with [exit(-1)] right
    after the error line of a failing query, its only output, so no index
    is ever computed from a partial enumeration. *)
Theorem getMaxGflopsDeviceIdDRV_returns_iff_enumeration_ok (E : env)
    (s : state) :
  ((exists d s', Drv.getMaxGflopsDeviceIdDRV E s = (Ret d, s'))
   <-> enumeration_ok E = true) /\
  (enumeration_ok E = true ->
   Drv.getMaxGflopsDeviceIdDRV E s =
     (Ret (max_perf_device E), emits s [Native "cuInit" [0]])) /\
  (enumeration_ok E = false ->
   exists line err,
     err <> CUDA_SUCCESS /\
     Drv.getMaxGflopsDeviceIdDRV E s =
       (Exit (-1),
        emits s [Native "cuInit" [0]; drv_error_line E line err])).
Proof.
  split; [| split].
  - split.
    + intros (d & s' & Hret). exact (getMaxGflopsDeviceIdDRV_Ret_inv _ _ _ _ Hret).
    + intros Hok. eexists _, _. by apply getMaxGflopsDeviceIdDRV_ok.
  - apply getMaxGflopsDeviceIdDRV_ok.
  - intros Hbad.
    destruct (getMaxGflopsDeviceIdDRV_cases E s) as [Hret | Hexit];
      [| exact Hexit].
    apply getMaxGflopsDeviceIdDRV_Ret_inv in Hret. congruence.
Qed.

Lemma getMaxGflopsDeviceIdDRV_returns_iff_enumeration_ok_witness :
  enumeration_ok two_gpus_attribute_fails = false /\
  Drv.getMaxGflopsDeviceIdDRV two_gpus_attribute_fails empty_state =
    (Exit (-1),
     emits empty_state
       [Native "cuInit" [0];
        drv_error_line two_gpus_attribute_fails 100 CUDA_ERROR_UNKNOWN]) /\
  enumeration_ok two_gpus = true.
Proof.
  destruct (getMaxGflopsDeviceIdDRV_returns_iff_enumeration_ok
              two_gpus_attribute_fails empty_state) as (_ & _ & Hbad).
  split; [reflexivity |]. split; [| reflexivity].
  destruct (Hbad eq_refl) as (line & err & _ & Hrun).
  rewrite Hrun. vm_compute in Hrun. inversion Hrun. reflexivity.
Defined.

(** ** What the selection reads *)

Section SameQueries.

Variables E E' : env.
Hypothesis Hcount : cuDeviceGetCount E' = cuDeviceGetCount E.
Hypothesis Hcap : cuDeviceComputeCapability E' = cuDeviceComputeCapability E.
Hypothesis Hattr : cuDeviceGetAttribute E' = cuDeviceGetAttribute E.
Hypothesis Hcores : _ConvertSMVer2Cores E' = _ConvertSMVer2Cores E.
Hypothesis Hstr : getCudaDrvErrorString E' = getCudaDrvErrorString E.

Lemma checkCudaErrors_same line err : 
  Drv.checkCudaErrors E' line err = Drv.checkCudaErrors E line err.
Proof.
  unfold Drv.checkCudaErrors, Drv.__checkCudaErrors. by rewrite Hstr.
Qed.

Lemma major_of_same d : Drv.major_of E' d = Drv.major_of E d.
Proof. unfold Drv.major_of. by rewrite Hcap. Qed.

Lemma compute_perf_same d : Drv.compute_perf E' d = Drv.compute_perf E d.
Proof.
  unfold Drv.compute_perf, Drv.major_of, Drv.minor_of.
  by rewrite Hcap, Hattr, Hcores.
Qed.

Lemma best_arch_loop_same n cur best s :
  Drv.best_arch_loop E' n cur best s = Drv.best_arch_loop E n cur best s.
Proof.
  revert cur best s. induction n as [|n IH]; intros cur best s;
    [reflexivity |].
  cbn [Drv.best_arch_loop]. unfold bind.
  rewrite checkCudaErrors_same, Hcap, major_of_same.
  destruct (Drv.checkCudaErrors E 90 _ s) as [[[]|c] s1]; [| reflexivity].
  apply IH.
Qed.

Lemma best_perf_loop_same best n cur mp md s :
  Drv.best_perf_loop E' best n cur mp md s =
    Drv.best_perf_loop E best n cur mp md s.
Proof.
  revert cur mp md s. induction n as [|n IH]; intros cur mp md s;
    [reflexivity |].
  cbn [Drv.best_perf_loop]. unfold bind.
  rewrite !checkCudaErrors_same, Hcap, Hattr, major_of_same, compute_perf_same.
  destruct (Drv.checkCudaErrors E 100 _ s) as [[[]|c] s1]; [| reflexivity].
  destruct (Drv.checkCudaErrors E 103 _ s1) as [[[]|c] s2]; [| reflexivity].
  destruct (Drv.checkCudaErrors E 106 _ s2) as [[[]|c] s3]; [| reflexivity].
  cbv zeta.
  destruct (if Drv.compute_perf E cur >? mp
            then if best >? 2
                 then if Drv.major_of E cur =? best
                      then (Drv.compute_perf E cur, cur) else (mp, md)
                 else (Drv.compute_perf E cur, cur)
            else (mp, md)) as [mp' md'].
  apply IH.
Qed.

(** The selection is a function of the count, the capability and the
    attribute queries, the core-count table and the error strings. *)
Lemma getMaxGflopsDeviceIdDRV_same s :
  Drv.getMaxGflopsDeviceIdDRV E' s = Drv.getMaxGflopsDeviceIdDRV E s.
Proof.
  rewrite !getMaxGflopsDeviceIdDRV_unfold. unfold bind.
  rewrite checkCudaErrors_same, Hcount.
  destruct (Drv.checkCudaErrors E 86 _ _) as [[[]|c] s1]; [| reflexivity].
  unfold Drv.best_arch_while, Drv.best_perf_while.
  rewrite best_arch_loop_same.
  destruct (Drv.best_arch_loop E _ 0 0 s1) as [[b|c] s2]; [| reflexivity].
  apply best_perf_loop_same.
Qed.

End SameQueries.

(** X3. A failing [cuInit] is treated differently by the two callers:
    [gpuDeviceInitDRV] reports it as "no devices supporting CUDA" and ends
    the process with [exit(-1)], without the driver's error string and
    whatever the device count is, while [getMaxGflopsDeviceIdDRV] does not
    look at the status and runs exactly as after a successful [cuInit]. *)
Theorem cuInit_failure_is_no_devices_or_ignored (E : env) (argc : Z)
    (argv : list string) (s : state) :
  cuInit E 0 <> CUDA_SUCCESS ->
  Drv.gpuDeviceInitDRV E argc argv s =
    (Exit (-1),
     emits s [Native "cuInit" [0]; Print stderr Drv.no_devices_fmt []]) /\
  Drv.getMaxGflopsDeviceIdDRV E s =
    Drv.getMaxGflopsDeviceIdDRV (with_cuInit E (fun _ => CUDA_SUCCESS)) s.
Proof.
  intros Hfail. split.
  - rewrite gpuDeviceInitDRV_run. cbv zeta.
    destruct (cuInit E 0 =? CUDA_SUCCESS) eqn:Heq; [| reflexivity].
    apply Z.eqb_eq in Heq. contradiction.
  - symmetry. by apply getMaxGflopsDeviceIdDRV_same.
Qed.

Lemma cuInit_failure_is_no_devices_or_ignored_witness :
  cuInit two_gpus_device_1_no_init 0 <> CUDA_SUCCESS /\
  fst (Drv.gpuDeviceInitDRV two_gpus_device_1_no_init 2 (argv_device "1")
         empty_state) = Exit (-1) /\
  fst (Drv.getMaxGflopsDeviceIdDRV two_gpus_no_init empty_state) = Ret 1.
Proof.
  assert (H1 : cuInit two_gpus_device_1_no_init 0 <> CUDA_SUCCESS)
    by discriminate.
  assert (H2 : cuInit two_gpus_no_init 0 <> CUDA_SUCCESS) by discriminate.
  destruct (cuInit_failure_is_no_devices_or_ignored two_gpus_device_1_no_init
              2 (argv_device "1") empty_state H1) as [Hinit _].
  destruct (cuInit_failure_is_no_devices_or_ignored two_gpus_no_init
              1 argv_plain empty_state H2) as [_ Hsel].
  split; [exact H1 |]. split.
  - rewrite Hinit. reflexivity.
  - rewrite Hsel. reflexivity.
Defined.

(** ** The find helpers without the flag [device] *)

(** X4. Without the flag [device] the command line has no further
    influence on [findCudaDeviceDRV]: whatever the command-line helper
    answers to any other question, the run is the same.  In particular
    [quiet] is not honoured on this path: once the selection has returned
    and [cuDeviceGet] has succeeded, the line "> Using CUDA Device" is
    printed. *)
Theorem findCudaDeviceDRV_without_flag_ignores_command_line (E : env)
    (f : Z -> list string -> string -> Z)
    (g : Z -> list string -> string -> bool)
    (argc : Z) (argv : list string) (p_devID : Z) (s : state) :
  checkCmdLineFlag E argc argv "device" = false ->
  g argc argv "device" = false ->
  Drv.findCudaDeviceDRV (with_cmdline E f g) argc argv p_devID s =
    Drv.findCudaDeviceDRV E argc argv p_devID s /\
  (forall devID s1,
     Drv.getMaxGflopsDeviceIdDRV E s = (Ret devID, s1) ->
     fst (cuDeviceGet E devID) = CUDA_SUCCESS ->
     find_using_line E devID
       ∈ emitted (Drv.findCudaDeviceDRV E argc argv p_devID) s).
Proof.
  intros Hflag Hg. split.
  - rewrite (findCudaDeviceDRV_noflag E _ _ _ _ Hflag).
    rewrite (findCudaDeviceDRV_noflag (with_cmdline E f g) _ _ _ _ Hg).
    rewrite (getMaxGflopsDeviceIdDRV_same E (with_cmdline E f g))
      by reflexivity.
    reflexivity.
  - intros devID s1 Hsel Hget. unfold emitted.
    rewrite (findCudaDeviceDRV_noflag E _ _ _ _ Hflag), Hsel, Hget.
    cbn [negb Z.eqb CUDA_SUCCESS snd].
    destruct (getMaxGflopsDeviceIdDRV_cases E s)
      as [Hrun | (line & err & _ & Hrun)];
      rewrite Hrun in Hsel; [| discriminate Hsel].
    injection Hsel as _ <-.
    rewrite stored_log, emits_emits. cbn [log emits app].
    rewrite drop_app_length. set_solver.
Qed.

Lemma findCudaDeviceDRV_without_flag_ignores_command_line_witness :
  quiet two_gpus_quiet 2 ["./matrixMul"; "-quiet"] = true /\
  find_using_line two_gpus_quiet 1
    ∈ emitted (Drv.findCudaDeviceDRV two_gpus_quiet 2
                 ["./matrixMul"; "-quiet"] 0) empty_state.
Proof.
  split; [reflexivity |].
  destruct (findCudaDeviceDRV_without_flag_ignores_command_line
              two_gpus_quiet (getCmdLineArgumentInt two_gpus_quiet)
              (checkCmdLineFlag two_gpus_quiet) 2 ["./matrixMul"; "-quiet"]
              0 empty_state eq_refl eq_refl) as [_ Hline].
  apply (Hline 1 (emits empty_state [Native "cuInit" [0]]));
    vm_compute; reflexivity.
Defined.

(** X5. The status of [cudaGLSetGLDevice] is looked at on one path only.
    Without the flag [device], [findCudaGLDevice] calls it for the index
    [gpuGetMaxGflopsDeviceId] returned and returns that index whatever the
    call answers, printing nothing; with the flag, the same failing call
    (made by [gpuGLDeviceInit] for a valid index of a CUDA-capable device)
    ends the process through the runtime error check. *)
Theorem cudaGLSetGLDevice_checked_only_with_flag (E : env) (argc : Z)
    (argv : list string) (s : state) :
  (checkCmdLineFlag E argc argv "device" = false ->
   forall devID s1,
     gpuGetMaxGflopsDeviceId E s = (Ret devID, s1) ->
     GL.findCudaGLDevice E argc argv s =
       (Ret devID, emits s1 [Native "cudaGLSetGLDevice" [devID]])) /\
  (checkCmdLineFlag E argc argv "device" = true ->
   let dev := requested E argc argv in
   fst (cudaGetDeviceCount E) = cudaSuccess ->
   snd (cudaGetDeviceCount E) <> 0 ->
   dev <= snd (cudaGetDeviceCount E) - 1 ->
   fst (cudaGetDeviceProperties E dev) = cudaSuccess ->
   1 <= prop_major (snd (cudaGetDeviceProperties E dev)) ->
   cudaGLSetGLDevice E dev <> cudaSuccess ->
   GL.findCudaGLDevice E argc argv s =
     (Exit (cudaCheckExitCode E),
      emits s ((if quiet E argc argv then [] else [gl_using_line E dev]) ++
               [Native "cudaGLSetGLDevice" [dev];
                rt_error_line E 46 (cudaGLSetGLDevice E dev)]))).
Proof.
  split.
  - intros Hflag devID s1 Hsel. unfold GL.findCudaGLDevice.
    rewrite Hflag. rewrite (bind_Ret _ _ _ _ _ Hsel).
    unfold native, emit, bind, ret. reflexivity.
  - intros Hflag dev Hst Hcount Hrange Hprop Hmajor Hset.
    rewrite (findCudaGLDevice_flag _ _ _ _ Hflag), gpuGLDeviceInit_run.
    cbv zeta. fold dev. rewrite Hst, Hprop.
    unfold cudaSuccess in *. cbn [negb Z.eqb].
    destruct (snd (cudaGetDeviceCount E) =? 0) eqn:H0; [lia |].
    destruct (dev >? snd (cudaGetDeviceCount E) - 1) eqn:H1; [lia |].
    destruct (_ <? 1) eqn:H2; [lia |].
    destruct (cudaGLSetGLDevice E dev =? 0) eqn:H3; [lia | reflexivity].
Qed.

Lemma cudaGLSetGLDevice_checked_only_with_flag_witness :
  cudaGLSetGLDevice two_gpus_no_interop 0 <> cudaSuccess /\
  GL.findCudaGLDevice two_gpus_no_interop 1 argv_plain empty_state =
    (Ret 0, emits empty_state [Native "cudaGLSetGLDevice" [0]]) /\
  fst (GL.findCudaGLDevice two_gpus_device_1_no_interop 2 (argv_device "1")
         empty_state) = Exit 1.
Proof.
  destruct (cudaGLSetGLDevice_checked_only_with_flag two_gpus_no_interop 1
              argv_plain empty_state) as [Hfree _].
  destruct (cudaGLSetGLDevice_checked_only_with_flag
              two_gpus_device_1_no_interop 2 (argv_device "1") empty_state)
    as [_ Hchecked].
  split; [discriminate |]. split.
  - apply (Hfree eq_refl 0 empty_state eq_refl).
  - rewrite Hchecked; [reflexivity | reflexivity | reflexivity | by_compute
                       | by_compute | reflexivity | by_compute | discriminate].
Defined.

(** ** Memory *)

Lemma heap_stored_null d s : heap (stored 0 d s) = heap s.
Proof. reflexivity. Qed.

Lemma gpuDeviceInitDRV_heap E argc argv s :
  heap (snd (Drv.gpuDeviceInitDRV E argc argv s)) = heap s.
Proof.
  rewrite gpuDeviceInitDRV_run. cbv zeta.
  repeat match goal with
         | |- context [if ?b then _ else _] => destruct b
         end; reflexivity.
Qed.

Lemma gpuGLDeviceInit_heap E argc argv s :
  heap (snd (GL.gpuGLDeviceInit E argc argv s)) = heap s.
Proof.
  rewrite gpuGLDeviceInit_run. cbv zeta.
  repeat match goal with
         | |- context [if ?b then _ else _] => destruct b
         end; reflexivity.
Qed.

Lemma getMaxGflopsDeviceIdDRV_heap E s :
  heap (snd (Drv.getMaxGflopsDeviceIdDRV E s)) = heap s.
Proof.
  destruct (getMaxGflopsDeviceIdDRV_cases E s)
    as [Hrun | (line & err & _ & Hrun)]; rewrite Hrun; reflexivity.
Qed.

(** The state before the store of line 154, or the final state of a run
    that ends earlier: the heap is still the initial one. *)
Lemma findCudaDeviceDRV_shape E argc argv p s :
  exists s1, heap s1 = heap s /\
    ((exists code, Drv.findCudaDeviceDRV E argc argv p s = (Exit code, s1)) \/
     (exists devID,
        Drv.findCudaDeviceDRV E argc argv p s =
          (Ret (snd (cuDeviceGet E devID)), stored p devID s1))).
Proof.
  destruct (checkCmdLineFlag E argc argv "device") eqn:Hflag.
  - rewrite (findCudaDeviceDRV_flag _ _ _ _ _ Hflag).
    pose proof (gpuDeviceInitDRV_heap E argc argv s) as Hheap.
    destruct (Drv.gpuDeviceInitDRV E argc argv s) as [[d|c] s1];
      cbn [snd] in Hheap.
    + destruct (d <? 0).
      * eexists. split; [| left; eexists; reflexivity]. exact Hheap.
      * exists s1. split; [exact Hheap | right; eexists; reflexivity].
    + exists s1. split; [exact Hheap | left; eexists; reflexivity].
  - rewrite (findCudaDeviceDRV_noflag _ _ _ _ _ Hflag).
    pose proof (getMaxGflopsDeviceIdDRV_heap E s) as Hheap.
    destruct (Drv.getMaxGflopsDeviceIdDRV E s) as [[d|c] s1];
      cbn [snd] in Hheap.
    + destruct (negb _).
      * eexists. split; [| left; eexists; reflexivity]. exact Hheap.
      * eexists. split; [| right; eexists; reflexivity]. exact Hheap.
    + exists s1. split; [exact Hheap | left; eexists; reflexivity].
Qed.

(** X6. The helpers write memory in one place only, the store through
    [p_devID] at the end of [findCudaDeviceDRV]: the init helpers and the
    selection leave the heap as it is; [findCudaDeviceDRV] leaves every
    address other than [p_devID] as it is, leaves the whole heap as it is
    when [p_devID] is null, and stores nothing on a run that ends in
    [exit]. *)
Theorem helpers_write_only_through_p_devID (E : env) (argc : Z)
    (argv : list string) (p_devID : Z) (s : state) :
  heap (snd (Drv.gpuDeviceInitDRV E argc argv s)) = heap s /\
  heap (snd (Drv.getMaxGflopsDeviceIdDRV E s)) = heap s /\
  heap (snd (GL.gpuGLDeviceInit E argc argv s)) = heap s /\
  (forall q, q <> p_devID ->
     heap (snd (Drv.findCudaDeviceDRV E argc argv p_devID s)) !! q =
       heap s !! q) /\
  (p_devID = 0 ->
   heap (snd (Drv.findCudaDeviceDRV E argc argv p_devID s)) = heap s) /\
  (forall code s',
     Drv.findCudaDeviceDRV E argc argv p_devID s = (Exit code, s') ->
     heap s' = heap s).
Proof.
  split; [apply gpuDeviceInitDRV_heap |].
  split; [apply getMaxGflopsDeviceIdDRV_heap |].
  split; [apply gpuGLDeviceInit_heap |].
  destruct (findCudaDeviceDRV_shape E argc argv p_devID s)
    as (s1 & Hheap & [[code Hrun] | [devID Hrun]]); rewrite Hrun.
  - split; [intros q _; by rewrite <- Hheap |].
    split; [intros _; exact Hheap |].
    intros c s' Heq. by inversion Heq; subst.
  - split; [intros q Hq; cbn [snd]; by rewrite stored_other, Hheap |].
    split; [intros ->; cbn [snd]; by rewrite heap_stored_null |].
    intros c s' Heq. discriminate Heq.
Qed.

Lemma helpers_write_only_through_p_devID_witness :
  heap (snd (Drv.findCudaDeviceDRV two_gpus 1 argv_plain 7
               {| log := []; heap := {[ 8 := 42 ]} |})) !! 8 = Some 42 /\
  heap (snd (Drv.findCudaDeviceDRV two_gpus 1 argv_plain 7
               {| log := []; heap := {[ 8 := 42 ]} |})) !! 7 = Some 1.
Proof.
  destruct (helpers_write_only_through_p_devID two_gpus 1 argv_plain 7
              {| log := []; heap := {[ 8 := 42 ]} |})
    as (_ & _ & _ & Hother & _).
  split.
  - rewrite Hother; [reflexivity | discriminate].
  - vm_compute. reflexivity.
Defined.

(** ** No device, no flag *)

Lemma enumeration_ok_no_device E :
  fst (cuDeviceGetCount E) = CUDA_SUCCESS ->
  snd (cuDeviceGetCount E) <= 0 ->
  enumeration_ok E = true /\ max_perf_device E = 0.
Proof.
  intros Hst Hcount. split.
  - apply enumeration_ok_spec. split; [exact Hst | intros i Hi; lia].
  - by destruct (max_perf_device_spec E) as (_ & H0 & _); apply H0.
Qed.

(** X7. With no device enumerated and no flag [device],
    [findCudaDeviceDRV] does not report "no devices": the selection
    returns index 0 and the outcome is the one of [cuDeviceGet] for that
    index - [exit(-1)] through the error check when it fails, and
    otherwise a normal return with index 0 printed and stored. *)
Theorem findCudaDeviceDRV_no_flag_no_device (E : env) (argc : Z)
    (argv : list string) (p_devID : Z) (s : state) :
  checkCmdLineFlag E argc argv "device" = false ->
  fst (cuDeviceGetCount E) = CUDA_SUCCESS ->
  snd (cuDeviceGetCount E) <= 0 ->
  Drv.findCudaDeviceDRV E argc argv p_devID s =
    (if fst (cuDeviceGet E 0) =? CUDA_SUCCESS then
       (Ret (snd (cuDeviceGet E 0)),
        stored p_devID 0
          (emits s [Native "cuInit" [0]; find_using_line E 0]))
     else
       (Exit (-1),
        emits s [Native "cuInit" [0];
                 drv_error_line E 149 (fst (cuDeviceGet E 0))])) /\
  (forall a,
     Print stderr Drv.no_devices_fmt a
       ∉ emitted (Drv.findCudaDeviceDRV E argc argv p_devID) s).
Proof.
  intros Hflag Hst Hcount.
  destruct (enumeration_ok_no_device E Hst Hcount) as [Hok Hzero].
  assert (Hrun : Drv.findCudaDeviceDRV E argc argv p_devID s =
    (if fst (cuDeviceGet E 0) =? CUDA_SUCCESS then
       (Ret (snd (cuDeviceGet E 0)),
        stored p_devID 0
          (emits s [Native "cuInit" [0]; find_using_line E 0]))
     else
       (Exit (-1),
        emits s [Native "cuInit" [0];
                 drv_error_line E 149 (fst (cuDeviceGet E 0))]))).
  { rewrite (findCudaDeviceDRV_noflag _ _ _ _ _ Hflag).
    rewrite (getMaxGflopsDeviceIdDRV_ok E s Hok), Hzero.
    destruct (fst (cuDeviceGet E 0) =? CUDA_SUCCESS); cbn [negb];
      by rewrite emits_emits. }
  split; [exact Hrun |].
  intros a. unfold emitted. rewrite Hrun.
  unfold find_using_line, drv_error_line.
  destruct (fst (cuDeviceGet E 0) =? CUDA_SUCCESS); cbn [snd];
    rewrite ?stored_log; cbn [log emits]; rewrite drop_app_length.
  - intros Hin.
    repeat (apply elem_of_cons in Hin as [Hin | Hin];
            [first [ discriminate Hin
                   | apply (f_equal (fun e => match e with
                                              | Print _ fmt _ => fmt
                                              | Native _ _ => EmptyString
                                              end)) in Hin;
                     vm_compute in Hin; discriminate Hin ] |]).
    by apply elem_of_nil in Hin.
  - intros Hin.
    repeat (apply elem_of_cons in Hin as [Hin | Hin];
            [first [ discriminate Hin
                   | apply (f_equal (fun e => match e with
                                              | Print _ fmt _ => fmt
                                              | Native _ _ => EmptyString
                                              end)) in Hin;
                     vm_compute in Hin; discriminate Hin ] |]).
    by apply elem_of_nil in Hin.
Qed.

Lemma findCudaDeviceDRV_no_flag_no_device_witness :
  Drv.findCudaDeviceDRV no_gpu 1 argv_plain 0 empty_state =
    (Exit (-1),
     emits empty_state
       [Native "cuInit" [0];
        drv_error_line no_gpu 149 CUDA_ERROR_INVALID_DEVICE]).
Proof.
  destruct (findCudaDeviceDRV_no_flag_no_device no_gpu 1 argv_plain 0
              empty_state eq_refl eq_refl ltac:(by_compute)) as [Hrun _].
  rewrite Hrun. reflexivity.
Defined.

(** ** The index [findCudaDeviceDRV] hands out *)

(** X8. On a machine with at least one device, whatever the command line,
    a run of [findCudaDeviceDRV] that returns has chosen an index in
    [0, device_count) for which [cuDeviceGet] succeeded: the handle
    returned is the one of that index, and that index is what is stored
    through a non-null [p_devID]. *)
Theorem findCudaDeviceDRV_hands_out_valid_index (E : env) (argc : Z)
    (argv : list string) (p_devID : Z) (s : state) (cuDevice : CUdevice)
    (s' : state) :
  1 <= snd (cuDeviceGetCount E) ->
  Drv.findCudaDeviceDRV E argc argv p_devID s = (Ret cuDevice, s') ->
  exists devID,
    0 <= devID < snd (cuDeviceGetCount E) /\
    cuDeviceGet E devID = (CUDA_SUCCESS, cuDevice) /\
    (p_devID <> 0 -> heap s' !! p_devID = Some devID).
Proof.
  intros Hcount Hret.
  destruct (checkCmdLineFlag E argc argv "device") eqn:Hflag.
  - rewrite (findCudaDeviceDRV_flag _ _ _ _ _ Hflag) in Hret.
    rewrite gpuDeviceInitDRV_run in Hret. cbv zeta in Hret.
    pose proof (requested_nonneg E argc argv) as Hnn.
    split_paths Hret; try discriminate Hret.
    all: inversion Hret; subst; clear Hret.
    all: try (exfalso; lia).
    all: exists (requested E argc argv).
    all: (split; [lia |]); split;
      [ destruct (cuDeviceGet E (requested E argc argv)) as [st h] eqn:Hg;
        cbn [fst snd] in *; f_equal; unfold CUDA_SUCCESS in *; lia
      | apply stored_lookup ].
  - rewrite (findCudaDeviceDRV_noflag _ _ _ _ _ Hflag) in Hret.
    destruct (getMaxGflopsDeviceIdDRV_cases E s)
      as [Hrun | (line & err & _ & Hrun)];
      rewrite Hrun in Hret; [| discriminate Hret].
    destruct (fst (cuDeviceGet E (max_perf_device E)) =? CUDA_SUCCESS)
      eqn:Hget; cbn [negb] in Hret; [| discriminate Hret].
    inversion Hret; subst; clear Hret.
    exists (max_perf_device E).
    destruct (max_perf_device_spec E) as (Hrange & _).
    split; [exact (Hrange Hcount) |]. split.
    + apply Z.eqb_eq in Hget.
      destruct (cuDeviceGet E (max_perf_device E)) as [st h].
      cbn [fst snd] in *. by rewrite Hget.
    + apply stored_lookup.
Qed.

Lemma findCudaDeviceDRV_hands_out_valid_index_witness :
  exists devID,
    0 <= devID < 2 /\
    cuDeviceGet two_gpus devID = (CUDA_SUCCESS, 1) /\
    heap (snd (Drv.findCudaDeviceDRV two_gpus 1 argv_plain 7 empty_state))
      !! 7 = Some devID.
Proof.
  destruct (findCudaDeviceDRV_hands_out_valid_index two_gpus 1 argv_plain 7
              empty_state 1
              (snd (Drv.findCudaDeviceDRV two_gpus 1 argv_plain 7
                      empty_state))
              ltac:(by_compute) ltac:(vm_compute; reflexivity))
    as (devID & Hrange & Hget & Hstore).
  exists devID. split; [exact Hrange |]. split; [exact Hget |].
  apply Hstore. discriminate.
Defined.

(** ** Machines without a device of major version above 2 *)

Lemma eligible_up_to_2 E best d : best <= 2 -> eligible E best d = true.
Proof.
  intros Hb. unfold eligible. destruct (best >? 2) eqn:H; [lia | reflexivity].
Qed.

(** X9. On a machine whose enumeration succeeds and on which no device has
    a major version in (2, 9999), the filter on the architecture is
    inactive: if some device has a positive score,
    [getMaxGflopsDeviceIdDRV] returns a device of maximal score among all
    enumerated devices, the one of lowest index. *)
Theorem getMaxGflopsDeviceIdDRV_global_maximum_up_to_major_2 (E : env)
    (s : state) :
  let count := snd (cuDeviceGetCount E) in
  enumeration_ok E = true ->
  (forall i, 0 <= i < count -> qualifies (Drv.major_of E i) = true ->
             Drv.major_of E i <= 2) ->
  (exists i, 0 <= i < count /\ 0 < Drv.compute_perf E i) ->
  exists d,
    Drv.getMaxGflopsDeviceIdDRV E s = (Ret d, emits s [Native "cuInit" [0]]) /\
    0 <= d < count /\
    (forall i, 0 <= i < count ->
               Drv.compute_perf E i <= Drv.compute_perf E d) /\
    (forall i, 0 <= i < d -> Drv.compute_perf E i < Drv.compute_perf E d).
Proof.
  intros count Hok Hmajor (i0 & Hi0 & Hpos).
  assert (Hbest : best_SM_arch E <= 2).
  { destruct (best_SM_arch_spec E) as [_ [H0 | (i & Hi & Hq & Hm)]];
      [lia |]. rewrite <- Hm. by apply Hmajor. }
  exists (max_perf_device E).
  split; [by apply getMaxGflopsDeviceIdDRV_ok |].
  destruct (max_perf_device_spec E) as (_ & _ & Hlow & Hsome & _).
  destruct Hsome as (Hrange & _ & _ & Hmax).
  { exists i0. split; [exact Hi0 |]. split; [| exact Hpos].
    by apply eligible_up_to_2. }
  split; [exact Hrange |]. split.
  - intros i Hi. apply Hmax; [exact Hi | by apply eligible_up_to_2].
  - intros i Hi. apply Hlow; [exact Hi | by apply eligible_up_to_2].
Qed.

Lemma getMaxGflopsDeviceIdDRV_global_maximum_up_to_major_2_witness :
  exists d,
    Drv.getMaxGflopsDeviceIdDRV two_fermis empty_state =
      (Ret d, emits empty_state [Native "cuInit" [0]]) /\
    Drv.compute_perf two_fermis 0 <= Drv.compute_perf two_fermis d /\
    Drv.compute_perf two_fermis 1 <= Drv.compute_perf two_fermis d.
Proof.
  destruct (getMaxGflopsDeviceIdDRV_global_maximum_up_to_major_2 two_fermis
              empty_state eq_refl) as (d & Hrun & _ & Hmax & _).
  - intros i Hi Hq. cbn in Hi.
    assert (Hcase : i = 0 \/ i = 1) by lia.
    destruct Hcase as [-> | ->]; by_compute.
  - exists 0. by_compute.
  - exists d. split; [exact Hrun |].
    split; apply Hmax; by_compute.
Defined.

(** ** The best major version *)




(** ** The two init helpers side by side *)

(** X10. The two init helpers validate an explicit index in the same way.
    When the driver and the runtime report the same number of devices, at
    least one, and both helpers return, they return the same value: the
    requested index when it is below the device count, and its negation,
    a negative number, when it is not. *)
Theorem init_helpers_validate_alike (E : env) (argc : Z) (argv : list string)
    (s : state) (d1 d2 : Z) (s1 s2 : state) :
  let count := snd (cuDeviceGetCount E) in
  snd (cudaGetDeviceCount E) = count ->
  1 <= count ->
  Drv.gpuDeviceInitDRV E argc argv s = (Ret d1, s1) ->
  GL.gpuGLDeviceInit E argc argv s = (Ret d2, s2) ->
  d1 = d2 /\
  (requested E argc argv < count -> d1 = requested E argc argv) /\
  (count <= requested E argc argv ->
   d1 = - requested E argc argv /\ d1 < 0).
Proof.
  intros count Hsame Hcount Hdrv Hgl.
  destruct (gpuDeviceInitDRV_outcomes E argc argv s) as [_ H1].
  destruct (gpuGLDeviceInit_outcomes E argc argv s) as [_ H2].
  cbv zeta in H1, H2. rewrite Hsame in H2. fold count in H1, H2.
  specialize (H1 _ _ Hdrv). specialize (H2 _ _ Hgl).
  destruct H1 as [[-> Hr1] | (-> & Hr1 & _)],
           H2 as [[-> Hr2] | (-> & Hr2 & _)]; repeat split; lia.
Qed.

Lemma init_helpers_validate_alike_witness :
  exists d,
    fst (Drv.gpuDeviceInitDRV one_gpu_device_5 2 (argv_device "5")
           empty_state) = Ret d /\
    fst (GL.gpuGLDeviceInit one_gpu_device_5 2 (argv_device "5") empty_state)
      = Ret d /\
    d < 0.
Proof.
  destruct (Drv.gpuDeviceInitDRV one_gpu_device_5 2 (argv_device "5")
              empty_state) as [o1 s1] eqn:Hdrv.
  destruct (GL.gpuGLDeviceInit one_gpu_device_5 2 (argv_device "5")
              empty_state) as [o2 s2] eqn:Hgl.
  assert (H1 : o1 = Ret (-5))
    by (apply (f_equal fst) in Hdrv; exact (eq_sym Hdrv)).
  assert (H2 : o2 = Ret (-5))
    by (apply (f_equal fst) in Hgl; exact (eq_sym Hgl)).
  subst o1 o2.
  destruct (init_helpers_validate_alike one_gpu_device_5 2 (argv_device "5")
              empty_state (-5) (-5) s1 s2 eq_refl ltac:(by_compute)
              Hdrv Hgl) as (_ & _ & Hneg).
  exists (-5). split; [reflexivity |]. split; [reflexivity |].
  apply Hneg. by_compute.
Defined.

(** ** Initialisation of the driver *)

Lemma gpuDeviceInitDRV_log E argc argv s :
  exists l, snd (Drv.gpuDeviceInitDRV E argc argv s) = emits s l /\
            cuInit_then_lines l.
Proof.
  rewrite gpuDeviceInitDRV_run. cbv zeta.
  unfold invalid_lines, drv_error_line, drv_using_line, cuInit_then_lines.
  repeat match goal with
         | |- context [if ?b then _ else _] => destruct b
         end;
    (eexists; split; [reflexivity |]; eexists; split; [reflexivity |];
     intros fn a; not_printed).
Qed.

Lemma getMaxGflopsDeviceIdDRV_log E s :
  exists l, snd (Drv.getMaxGflopsDeviceIdDRV E s) = emits s l /\
            cuInit_then_lines l.
Proof.
  unfold cuInit_then_lines, drv_error_line.
  destruct (getMaxGflopsDeviceIdDRV_cases E s)
    as [Hrun | (line & err & _ & Hrun)]; rewrite Hrun;
    (eexists; split; [reflexivity |]; eexists; split; [reflexivity |];
     intros fn a; not_printed).
Qed.

Lemma cuInit_then_lines_snoc l st fmt a :
  cuInit_then_lines l -> cuInit_then_lines (l ++ [Print st fmt a]).
Proof.
  intros (lines & -> & Hlines). exists (lines ++ [Print st fmt a]).
  split; [reflexivity |]. intros fn b Hin.
  apply elem_of_app in Hin as [Hin | Hin]; [by apply (Hlines fn b) |].
  apply list_elem_of_singleton in Hin. discriminate Hin.
Qed.

(** X12. Every run of [gpuDeviceInitDRV], of [getMaxGflopsDeviceIdDRV] and
    of [findCudaDeviceDRV], however it ends, calls [cuInit(0)] exactly once
    and before it prints anything: what the run appends to the log is that
    call followed by printed lines only. *)
Theorem cuInit_is_called_once_and_first (E : env) (argc : Z)
    (argv : list string) (p_devID : Z) (s : state) :
  cuInit_then_lines (emitted (Drv.gpuDeviceInitDRV E argc argv) s) /\
  cuInit_then_lines (emitted (Drv.getMaxGflopsDeviceIdDRV E) s) /\
  cuInit_then_lines (emitted (Drv.findCudaDeviceDRV E argc argv p_devID) s).
Proof.
  split; [| split].
  - destruct (gpuDeviceInitDRV_log E argc argv s) as (l & Hs & Hl).
    unfold emitted. rewrite Hs. cbn [log emits].
    by rewrite drop_app_length.
  - destruct (getMaxGflopsDeviceIdDRV_log E s) as (l & Hs & Hl).
    unfold emitted. rewrite Hs. cbn [log emits].
    by rewrite drop_app_length.
  - unfold emitted.
    destruct (checkCmdLineFlag E argc argv "device") eqn:Hflag.
    + rewrite (findCudaDeviceDRV_flag _ _ _ _ _ Hflag).
      destruct (gpuDeviceInitDRV_log E argc argv s) as (l & Hs & Hl).
      destruct (Drv.gpuDeviceInitDRV E argc argv s) as [[d|c] s1];
        cbn [snd] in Hs; subst s1.
      * destruct (d <? 0); cbn [snd]; rewrite ?stored_log, ?emits_emits;
          cbn [log emits]; rewrite drop_app_length;
          [by apply cuInit_then_lines_snoc | exact Hl].
      * cbn [snd log emits]. by rewrite drop_app_length.
    + rewrite (findCudaDeviceDRV_noflag _ _ _ _ _ Hflag).
      destruct (getMaxGflopsDeviceIdDRV_log E s) as (l & Hs & Hl).
      destruct (Drv.getMaxGflopsDeviceIdDRV E s) as [[d|c] s1];
        cbn [snd] in Hs; subst s1.
      * unfold drv_error_line, find_using_line.
        destruct (negb _); cbn [snd]; rewrite ?stored_log, ?emits_emits;
          cbn [log emits]; rewrite drop_app_length;
          by apply cuInit_then_lines_snoc.
      * cbn [snd log emits]. by rewrite drop_app_length.
Qed.

(** ** What [quiet] does not change *)

(** X13. The flag [quiet] changes what the init helpers print and nothing
    else: whatever the command-line helper answers to the question about
    flags, [gpuDeviceInitDRV] and [gpuGLDeviceInit] end in the same way,
    with the same returned value or the same exit code.  In particular a
    rejected index is still reported with [quiet] present. *)
Theorem quiet_changes_no_outcome (E : env)
    (g : Z -> list string -> string -> bool) (argc : Z) (argv : list string)
    (s : state) :
  let E' := with_cmdline E (getCmdLineArgumentInt E) g in
  fst (Drv.gpuDeviceInitDRV E' argc argv s) =
    fst (Drv.gpuDeviceInitDRV E argc argv s) /\
  fst (GL.gpuGLDeviceInit E' argc argv s) =
    fst (GL.gpuGLDeviceInit E argc argv s) /\
  (forall d s1,
     Drv.gpuDeviceInitDRV E argc argv s = (Ret d, s1) -> d < 0 ->
     Print stderr Drv.invalid_fmt [AInt (requested E argc argv)]
       ∈ emitted (Drv.gpuDeviceInitDRV E argc argv) s).
Proof.
  intros E'. subst E'. split; [| split].
  - rewrite !gpuDeviceInitDRV_run. cbv zeta.
    unfold requested, quiet.
    cbn [with_cmdline cuInit cuDeviceGetCount cuDeviceGet
         getCmdLineArgumentInt checkCmdLineFlag].
    repeat match goal with
           | |- context [if ?b then _ else _] => destruct b
           end; reflexivity.
  - rewrite !gpuGLDeviceInit_run. cbv zeta.
    unfold requested, quiet.
    cbn [with_cmdline cudaGetDeviceCount cudaGetDeviceProperties
         cudaGLSetGLDevice cudaCheckExitCode
         getCmdLineArgumentInt checkCmdLineFlag].
    repeat match goal with
           | |- context [if ?b then _ else _] => destruct b
           end; reflexivity.
  - intros d s1 Hret Hd. unfold emitted.
    pose proof (requested_nonneg E argc argv) as Hnn.
    rewrite gpuDeviceInitDRV_run in *. cbv zeta in *.
    split_paths Hret; inversion Hret; subst; try lia.
    cbn [snd log emits]. rewrite drop_app_length.
    unfold invalid_lines. set_solver.
Qed.

Lemma quiet_changes_no_outcome_witness :
  fst (Drv.gpuDeviceInitDRV
         (with_cmdline one_gpu_device_5
            (getCmdLineArgumentInt one_gpu_device_5) (fun _ _ _ => true))
         3 ["./matrixMul"; "-device=5"; "-quiet"] empty_state) = Ret (-5).
Proof.
  destruct (quiet_changes_no_outcome one_gpu_device_5 (fun _ _ _ => true)
              3 ["./matrixMul"; "-device=5"; "-quiet"] empty_state)
    as [Hdrv _].
  cbv zeta in Hdrv. rewrite Hdrv. reflexivity.
Defined.
